(** * mediasoup Consumer: lifecycle, pause/resume and notification handling

    A shallow embedding of [src/src/Consumer.ts].  The Consumer object is a
    record holding its private fields together with the collaborators it
    mutates (the channel, the payload channel, its two event emitters and the
    module logger).  Synchronous methods are state transformers; [async]
    methods return the state reached at their [await] together with the
    continuation that runs once the channel request settles. *)

From Stdlib Require Import String List ZArith Bool Lia.
From Stdlib Require Import Strings.Byte.
Import ListNotations.

Set Warnings "-register-all".

Local Open Scope string_scope.
Local Open Scope bool_scope.

(** ** JavaScript values

    Payloads cross the channel as [any]; the Consumer stores them without
    inspecting them, except for one property read and one truthiness test.
    Numbers are integers here (the code does no arithmetic on them). *)
Module Js.

Inductive value : Type :=
| Undefined
| Null
| Boolean (b : bool)
| Number (n : Z)
| Str (s : string)
| Buffer (bytes : list byte)
| Array (items : list value)
| Object (props : list (string * value)).

(** ToBoolean. *)
Definition truthy (v : value) : bool :=
  match v with
  | Undefined | Null => false
  | Boolean b => b
  | Number n => negb (Z.eqb n 0)
  | Str s => negb (String.eqb s "")
  | Buffer _ | Array _ | Object _ => true
  end.

(** [a || b]. *)
Definition or (a b : value) : value := if truthy a then a else b.

Fixpoint lookup (k : string) (props : list (string * value)) : value :=
  match props with
  | [] => Undefined
  | (k', v) :: rest => if String.eqb k k' then v else lookup k rest
  end.

(** [v.k]: [None] stands for the TypeError raised on [undefined] and [null].
    Built-in properties of primitives and arrays are not modelled (the only
    key read by the Consumer is "priority"). *)
Definition get (v : value) (k : string) : option value :=
  match v with
  | Undefined | Null => None
  | Object props => Some (lookup k props)
  | _ => Some Undefined
  end.

End Js.

(** ** Errors and settled promises *)

Record Error : Type := mkError { err_name : string; err_message : string }.

Inductive Settled (A : Type) : Type :=
| Fulfilled (v : A)
| Rejected (e : Error).
Arguments Fulfilled {A} v.
Arguments Rejected {A} e.

(** What a channel request settles to. *)
Definition Response : Type := Settled Js.value.

(** ** Event emitters *)

Record Emission : Type := mkEmission { ev_name : string; ev_args : list Js.value }.

(** Modelled from the spec: EnhancedEventEmitter (EnhancedEventEmitter.ts, which
    Consumer.ts imports, is not available).  An emitter is observed through the sequence of
    events emitted on it; listeners are application code and are taken not to
    throw, so [emit] and [safeEmit] both record the event and return. *)
Module EnhancedEventEmitter.

Record t : Type := mk { emitted : list Emission }.

Definition new : t := mk [].

Definition emit (name : string) (args : list Js.value) (e : t) : t :=
  mk (emitted e ++ [mkEmission name args]).

Definition safeEmit (name : string) (args : list Js.value) (e : t) : t :=
  emit name args e.

End EnhancedEventEmitter.

(** ** Identifiers *)

Record Internal : Type := mkInternal {
  routerId : string;
  transportId : string;
  consumerId : string;
  producerId : string
}.

(** ** Channels *)

Record Request : Type := mkRequest {
  req_method : string;
  req_internal : Internal;
  req_data : Js.value
}.

(** Modelled from the spec: Channel (Channel.ts, which Consumer.ts imports,
    is not available).  The Consumer uses three of its methods.  [request]
    places a request; the list [sent] records every request placed, in order,
    and what the request settles to is supplied from outside as a [Response].
    [on] and [removeAllListeners] maintain the ids under which the Consumer's
    notification handler is registered. *)
Module Channel.

Record t : Type := mk { sent : list Request; listeners : list string }.

Definition request (method : string) (internal : Internal) (data : Js.value)
    (ch : t) : t :=
  mk (sent ch ++ [mkRequest method internal data]) (listeners ch).

Definition on (id : string) (ch : t) : t :=
  mk (sent ch) (listeners ch ++ [id]).

Definition removeAllListeners (id : string) (ch : t) : t :=
  mk (sent ch) (filter (fun l => negb (String.eqb l id)) (listeners ch)).

(** The handlers registered under [id] at the time an event is dispatched. *)
Definition listenersOf (id : string) (ch : t) : list string :=
  filter (fun l => String.eqb l id) (listeners ch).

End Channel.

(** Modelled from the spec: PayloadChannel (PayloadChannel.ts, which Consumer.ts
    imports, is not available); the Consumer only subscribes to it. *)
Module PayloadChannel.

Record t : Type := mk { listeners : list string }.

Definition on (id : string) (ch : t) : t := mk (listeners ch ++ [id]).

Definition listenersOf (id : string) (ch : t) : list string :=
  filter (fun l => String.eqb l id) (listeners ch).

End PayloadChannel.

(** ** Consumer data *)

Inductive MediaKind : Type := audio | video.

Inductive ConsumerType : Type := simple | simulcast | svc | pipe.

Inductive ConsumerTraceEventType : Type :=
| trace_rtp | trace_keyframe | trace_nack | trace_pli | trace_fir.

Definition traceTypeName (ty : ConsumerTraceEventType) : string :=
  match ty with
  | trace_rtp => "rtp"
  | trace_keyframe => "keyframe"
  | trace_nack => "nack"
  | trace_pli => "pli"
  | trace_fir => "fir"
  end.

Record ConsumerLayers : Type := mkLayers {
  spatialLayer : Z;
  temporalLayer : option Z
}.

Record ConsumerData : Type := mkData {
  kind : MediaKind;
  rtpParameters : Js.value;
  type : ConsumerType
}.

Definition optNumber (n : option Z) : Js.value :=
  match n with
  | Some z => Js.Number z
  | None => Js.Undefined
  end.

(** ** The Consumer *)
Module Consumer.

(** The private fields of the class, in declaration order.  [_emitter] is the
    EnhancedEventEmitter the class extends; [_logged] collects the messages
    passed to [logger.error]. *)
Record t : Type := mk {
  _internal : Internal;
  _data : ConsumerData;
  _channel : Channel.t;
  _payloadChannel : PayloadChannel.t;
  _closed : bool;
  _appData : Js.value;
  _paused : bool;
  _producerPaused : bool;
  _priority : Js.value;
  _score : Js.value;
  _preferredLayers : Js.value;
  _currentLayers : Js.value;
  _observer : EnhancedEventEmitter.t;
  _emitter : EnhancedEventEmitter.t;
  _logged : list string
}.

(** Field assignments. *)
Definition with_channel (v : Channel.t) (c : t) : t :=
  mk (_internal c) (_data c) v (_payloadChannel c) (_closed c) (_appData c)
     (_paused c) (_producerPaused c) (_priority c) (_score c)
     (_preferredLayers c) (_currentLayers c) (_observer c) (_emitter c)
     (_logged c).

Definition with_payloadChannel (v : PayloadChannel.t) (c : t) : t :=
  mk (_internal c) (_data c) (_channel c) v (_closed c) (_appData c)
     (_paused c) (_producerPaused c) (_priority c) (_score c)
     (_preferredLayers c) (_currentLayers c) (_observer c) (_emitter c)
     (_logged c).

Definition with_closed (v : bool) (c : t) : t :=
  mk (_internal c) (_data c) (_channel c) (_payloadChannel c) v (_appData c)
     (_paused c) (_producerPaused c) (_priority c) (_score c)
     (_preferredLayers c) (_currentLayers c) (_observer c) (_emitter c)
     (_logged c).

Definition with_paused (v : bool) (c : t) : t :=
  mk (_internal c) (_data c) (_channel c) (_payloadChannel c) (_closed c)
     (_appData c) v (_producerPaused c) (_priority c) (_score c)
     (_preferredLayers c) (_currentLayers c) (_observer c) (_emitter c)
     (_logged c).

Definition with_producerPaused (v : bool) (c : t) : t :=
  mk (_internal c) (_data c) (_channel c) (_payloadChannel c) (_closed c)
     (_appData c) (_paused c) v (_priority c) (_score c)
     (_preferredLayers c) (_currentLayers c) (_observer c) (_emitter c)
     (_logged c).

Definition with_priority (v : Js.value) (c : t) : t :=
  mk (_internal c) (_data c) (_channel c) (_payloadChannel c) (_closed c)
     (_appData c) (_paused c) (_producerPaused c) v (_score c)
     (_preferredLayers c) (_currentLayers c) (_observer c) (_emitter c)
     (_logged c).

Definition with_score (v : Js.value) (c : t) : t :=
  mk (_internal c) (_data c) (_channel c) (_payloadChannel c) (_closed c)
     (_appData c) (_paused c) (_producerPaused c) (_priority c) v
     (_preferredLayers c) (_currentLayers c) (_observer c) (_emitter c)
     (_logged c).

Definition with_preferredLayers (v : Js.value) (c : t) : t :=
  mk (_internal c) (_data c) (_channel c) (_payloadChannel c) (_closed c)
     (_appData c) (_paused c) (_producerPaused c) (_priority c) (_score c)
     v (_currentLayers c) (_observer c) (_emitter c) (_logged c).

Definition with_currentLayers (v : Js.value) (c : t) : t :=
  mk (_internal c) (_data c) (_channel c) (_payloadChannel c) (_closed c)
     (_appData c) (_paused c) (_producerPaused c) (_priority c) (_score c)
     (_preferredLayers c) v (_observer c) (_emitter c) (_logged c).

Definition with_observer (v : EnhancedEventEmitter.t) (c : t) : t :=
  mk (_internal c) (_data c) (_channel c) (_payloadChannel c) (_closed c)
     (_appData c) (_paused c) (_producerPaused c) (_priority c) (_score c)
     (_preferredLayers c) (_currentLayers c) v (_emitter c) (_logged c).

Definition with_emitter (v : EnhancedEventEmitter.t) (c : t) : t :=
  mk (_internal c) (_data c) (_channel c) (_payloadChannel c) (_closed c)
     (_appData c) (_paused c) (_producerPaused c) (_priority c) (_score c)
     (_preferredLayers c) (_currentLayers c) (_observer c) v (_logged c).

Definition with_logged (v : list string) (c : t) : t :=
  mk (_internal c) (_data c) (_channel c) (_payloadChannel c) (_closed c)
     (_appData c) (_paused c) (_producerPaused c) (_priority c) (_score c)
     (_preferredLayers c) (_currentLayers c) (_observer c) (_emitter c) v.

(** [this.emit(name, ...args)] and [this.safeEmit(name, ...args)]. *)
Definition emit (name : string) (args : list Js.value) (c : t) : t :=
  with_emitter (EnhancedEventEmitter.emit name args (_emitter c)) c.

Definition safeEmit (name : string) (args : list Js.value) (c : t) : t :=
  with_emitter (EnhancedEventEmitter.safeEmit name args (_emitter c)) c.

(** [this._observer.safeEmit(name, ...args)]. *)
Definition observerSafeEmit (name : string) (args : list Js.value) (c : t) : t :=
  with_observer (EnhancedEventEmitter.safeEmit name args (_observer c)) c.

(** [this._channel.request(method, this._internal, data)]: the request is
    placed; what it settles to arrives later. *)
Definition channelRequest (method : string) (data : Js.value) (c : t) : t :=
  with_channel (Channel.request method (_internal c) data (_channel c)) c.

(** [this._channel.removeAllListeners(this._internal.consumerId)]. *)
Definition channelRemoveAllListeners (c : t) : t :=
  with_channel
    (Channel.removeAllListeners (consumerId (_internal c)) (_channel c)) c.

(** [logger.error('ignoring unknown event "%s"', event)]. *)
Definition loggerError (event : string) (c : t) : t :=
  with_logged (_logged c ++ ["ignoring unknown event " ++ event]) c.

(** An [async] method runs up to its [await] and hands back the continuation
    to run, on the state of that later moment, once the request settles.
    Every [async] method of the class awaits exactly one channel request. *)
Inductive Pending (A : Type) : Type :=
| Awaiting (k : Response -> t -> t * Settled A).
Arguments Awaiting {A} k.

Definition Async (A : Type) : Type := (t * Pending A)%type.

(** The request settles with [resp] before anything else reaches the
    Consumer. *)
Definition settle {A : Type} (resp : Response) (a : Async A) : t * Settled A :=
  match a with
  | (c, Awaiting k) => k resp c
  end.

(** A synchronous call either returns or throws. *)
Inductive Completion (A : Type) : Type :=
| Returns (v : A)
| Throws (e : Error).
Arguments Returns {A} v.
Arguments Throws {A} e.

(** *** Construction *)

Definition defaultScore : Js.value :=
  Js.Object [("score", Js.Number 10); ("producerScore", Js.Number 10);
             ("producerScores", Js.Array [])].

(** Subscription half of [_handleWorkerNotifications]: the two handlers are
    registered under the consumer id.  The handlers themselves are
    [onChannelNotification] and [onPayloadNotification] below. *)
Definition _handleWorkerNotifications (c : t) : t :=
  let c := with_channel (Channel.on (consumerId (_internal c)) (_channel c)) c in
  with_payloadChannel
    (PayloadChannel.on (consumerId (_internal c)) (_payloadChannel c)) c.

Definition constructor (internal : Internal) (data : ConsumerData)
    (channel : Channel.t) (payloadChannel : PayloadChannel.t)
    (appData : Js.value) (paused producerPaused : bool)
    (score preferredLayers : Js.value) : t :=
  _handleWorkerNotifications
    (mk internal data channel payloadChannel false appData paused
        producerPaused (Js.Number 1)
        (match score with Js.Undefined => defaultScore | _ => score end)
        preferredLayers Js.Undefined
        EnhancedEventEmitter.new EnhancedEventEmitter.new []).

(** *** Accessors *)

Definition id (c : t) : string := consumerId (_internal c).
Definition closed (c : t) : bool := _closed c.
Definition paused (c : t) : bool := _paused c.
Definition producerPaused (c : t) : bool := _producerPaused c.
Definition priority (c : t) : Js.value := _priority c.
Definition score (c : t) : Js.value := _score c.
Definition preferredLayers (c : t) : Js.value := _preferredLayers c.
Definition currentLayers (c : t) : Js.value := _currentLayers c.
Definition observer (c : t) : EnhancedEventEmitter.t := _observer c.

(** [get appData()]. *)
Definition get_appData (c : t) : Js.value := _appData c.

(** [set appData(appData)]. *)
Definition set_appData (appData : Js.value) (c : t) : t * Completion unit :=
  (c, Throws (mkError "Error" "cannot override appData object")).

(** *** close() and transportClosed() *)

Definition close (c : t) : t :=
  if _closed c then c
  else
    let c := with_closed true c in
    let c := channelRemoveAllListeners c in
    let c := channelRequest "consumer.close" Js.Undefined c in
    let c := emit "@close" [] c in
    observerSafeEmit "close" [] c.

(** The [.catch(() => {})] chained on the close request: what the chained
    promise settles to once the request itself has settled.  Nothing in
    [close] holds on to that promise. *)
Definition closeRequestCatch (resp : Response) (c : t) : t * Settled Js.value :=
  match resp with
  | Fulfilled v => (c, Fulfilled v)
  | Rejected _ => (c, Fulfilled Js.Undefined)
  end.

Definition transportClosed (c : t) : t :=
  if _closed c then c
  else
    let c := with_closed true c in
    let c := channelRemoveAllListeners c in
    let c := safeEmit "transportclose" [] c in
    observerSafeEmit "close" [] c.

(** *** Methods that await a channel request *)

Definition dump (c : t) : Async Js.value :=
  (channelRequest "consumer.dump" Js.Undefined c,
   Awaiting (fun resp c => (c, resp))).

Definition getStats (c : t) : Async Js.value :=
  (channelRequest "consumer.getStats" Js.Undefined c,
   Awaiting (fun resp c => (c, resp))).

Definition pause (c : t) : Async unit :=
  let wasPaused := _paused c || _producerPaused c in
  (channelRequest "consumer.pause" Js.Undefined c,
   Awaiting (fun resp c =>
     match resp with
     | Rejected e => (c, Rejected e)
     | Fulfilled _ =>
         let c := with_paused true c in
         let c := if negb wasPaused then observerSafeEmit "pause" [] c else c in
         (c, Fulfilled tt)
     end)).

Definition resume (c : t) : Async unit :=
  let wasPaused := _paused c || _producerPaused c in
  (channelRequest "consumer.resume" Js.Undefined c,
   Awaiting (fun resp c =>
     match resp with
     | Rejected e => (c, Rejected e)
     | Fulfilled _ =>
         let c := with_paused false c in
         let c :=
           if wasPaused && negb (_producerPaused c)
           then observerSafeEmit "resume" [] c else c in
         (c, Fulfilled tt)
     end)).

Definition setPreferredLayers (layers : ConsumerLayers) (c : t) : Async unit :=
  let reqData :=
    Js.Object [("spatialLayer", Js.Number (spatialLayer layers));
               ("temporalLayer", optNumber (temporalLayer layers))] in
  (channelRequest "consumer.setPreferredLayers" reqData c,
   Awaiting (fun resp c =>
     match resp with
     | Rejected e => (c, Rejected e)
     | Fulfilled data =>
         (with_preferredLayers (Js.or data Js.Undefined) c, Fulfilled tt)
     end)).

(** The TypeError of reading a property of [undefined] or [null]. *)
Definition cannotRead (k : string) (v : Js.value) : Error :=
  mkError "TypeError"
    ("Cannot read property '" ++ k ++ "' of "
       ++ match v with Js.Null => "null" | _ => "undefined" end).

(** The part after the [await], shared by [setPriority] and [unsetPriority]:
    [this._priority = data.priority]. *)
Definition assignEchoedPriority (resp : Response) (c : t) : t * Settled unit :=
  match resp with
  | Rejected e => (c, Rejected e)
  | Fulfilled data =>
      match Js.get data "priority" with
      | None => (c, Rejected (cannotRead "priority" data))
      | Some p => (with_priority p c, Fulfilled tt)
      end
  end.

Definition setPriority (priority : Z) (c : t) : Async unit :=
  let reqData := Js.Object [("priority", Js.Number priority)] in
  (channelRequest "consumer.setPriority" reqData c,
   Awaiting assignEchoedPriority).

Definition unsetPriority (c : t) : Async unit :=
  let reqData := Js.Object [("priority", Js.Number 1)] in
  (channelRequest "consumer.setPriority" reqData c,
   Awaiting assignEchoedPriority).

Definition requestKeyFrame (c : t) : Async unit :=
  (channelRequest "consumer.requestKeyFrame" Js.Undefined c,
   Awaiting (fun resp c =>
     match resp with
     | Rejected e => (c, Rejected e)
     | Fulfilled _ => (c, Fulfilled tt)
     end)).

Definition enableTraceEvent (types : list ConsumerTraceEventType) (c : t)
    : Async unit :=
  let reqData :=
    Js.Object [("types", Js.Array (map (fun ty => Js.Str (traceTypeName ty)) types))] in
  (channelRequest "consumer.enableTraceEvent" reqData c,
   Awaiting (fun resp c =>
     match resp with
     | Rejected e => (c, Rejected e)
     | Fulfilled _ => (c, Fulfilled tt)
     end)).

(** *** Notification handlers *)

(** The listener registered on the channel under the consumer id. *)
Definition onChannelNotification (event : string) (data : Js.value) (c : t) : t :=
  if String.eqb event "producerclose" then
    if _closed c then c
    else
      let c := with_closed true c in
      let c := channelRemoveAllListeners c in
      let c := emit "@producerclose" [] c in
      let c := safeEmit "producerclose" [] c in
      observerSafeEmit "close" [] c
  else if String.eqb event "producerpause" then
    if _producerPaused c then c
    else
      let wasPaused := _paused c || _producerPaused c in
      let c := with_producerPaused true c in
      let c := safeEmit "producerpause" [] c in
      if negb wasPaused then observerSafeEmit "pause" [] c else c
  else if String.eqb event "producerresume" then
    if negb (_producerPaused c) then c
    else
      let wasPaused := _paused c || _producerPaused c in
      let c := with_producerPaused false c in
      let c := safeEmit "producerresume" [] c in
      if wasPaused && negb (_paused c) then observerSafeEmit "resume" [] c else c
  else if String.eqb event "score" then
    let c := with_score data c in
    let c := safeEmit "score" [data] c in
    observerSafeEmit "score" [data] c
  else if String.eqb event "layerschange" then
    let c := with_currentLayers data c in
    let c := safeEmit "layerschange" [data] c in
    observerSafeEmit "layerschange" [data] c
  else if String.eqb event "trace" then
    let c := safeEmit "trace" [data] c in
    observerSafeEmit "trace" [data] c
  else loggerError event c.

(** The listener registered on the payload channel under the consumer id. *)
Definition onPayloadNotification (event : string) (data : Js.value)
    (payload : list byte) (c : t) : t :=
  if String.eqb event "rtp" then
    if _closed c then c
    else safeEmit "rtp" [Js.Buffer payload] c
  else loggerError event c.

(** Calling a handler once per registration found when dispatch starts. *)
Fixpoint invokeEach {L : Type} (registered : list L) (h : t -> t) (c : t) : t :=
  match registered with
  | [] => c
  | _ :: rest => invokeEach rest h (h c)
  end.

(** The channel delivers a notification addressed to [target]. *)
Definition channelDeliver (target event : string) (data : Js.value) (c : t) : t :=
  invokeEach (Channel.listenersOf target (_channel c))
             (onChannelNotification event data) c.

(** The payload channel delivers a notification addressed to [target]. *)
Definition payloadDeliver (target event : string) (data : Js.value)
    (payload : list byte) (c : t) : t :=
  invokeEach (PayloadChannel.listenersOf target (_payloadChannel c))
             (onPayloadNotification event data payload) c.

(** *** Histories

    Everything that can happen to a Consumer, each asynchronous call taken
    together with the response its request settles to. *)
Inductive Action : Type :=
| Close
| TransportClosed
| Dump (resp : Response)
| GetStats (resp : Response)
| Pause (resp : Response)
| Resume (resp : Response)
| SetPreferredLayers (layers : ConsumerLayers) (resp : Response)
| SetPriority (priority : Z) (resp : Response)
| UnsetPriority (resp : Response)
| RequestKeyFrame (resp : Response)
| EnableTraceEvent (types : list ConsumerTraceEventType) (resp : Response)
| AssignAppData (v : Js.value)
| ChannelNotification (target event : string) (data : Js.value)
| PayloadNotification (target event : string) (data : Js.value)
    (payload : list byte).

Definition step (a : Action) (c : t) : t :=
  match a with
  | Close => close c
  | TransportClosed => transportClosed c
  | Dump resp => fst (settle resp (dump c))
  | GetStats resp => fst (settle resp (getStats c))
  | Pause resp => fst (settle resp (pause c))
  | Resume resp => fst (settle resp (resume c))
  | SetPreferredLayers layers resp => fst (settle resp (setPreferredLayers layers c))
  | SetPriority p resp => fst (settle resp (setPriority p c))
  | UnsetPriority resp => fst (settle resp (unsetPriority c))
  | RequestKeyFrame resp => fst (settle resp (requestKeyFrame c))
  | EnableTraceEvent types resp => fst (settle resp (enableTraceEvent types c))
  | AssignAppData v => fst (set_appData v c)
  | ChannelNotification target event data => channelDeliver target event data c
  | PayloadNotification target event data payload =>
      payloadDeliver target event data payload c
  end.

Fixpoint run (history : list Action) (c : t) : t :=
  match history with
  | [] => c
  | a :: rest => run rest (step a c)
  end.

(** *** Observations *)

(** Effective pause: own flag or peer flag. *)
Definition effectivelyPaused (c : t) : bool := _paused c || _producerPaused c.

(** Events emitted on the observer, on the Consumer itself, and requests
    placed on the channel. *)
Definition observerEvents (c : t) : list Emission :=
  EnhancedEventEmitter.emitted (_observer c).

Definition localEvents (c : t) : list Emission :=
  EnhancedEventEmitter.emitted (_emitter c).

Definition requests (c : t) : list Request := Channel.sent (_channel c).

Definition subscribed (c : t) : bool :=
  existsb (String.eqb (consumerId (_internal c))) (Channel.listeners (_channel c)).

Definition named (name : string) (e : Emission) : bool :=
  String.eqb (ev_name e) name.

Definition countNamed (name : string) (events : list Emission) : nat :=
  length (filter (named name) events).

Definition event (name : string) : Emission := mkEmission name [].

End Consumer.

(** ** Vocabulary of the properties *)

Import Consumer.
Local Open Scope list_scope.

(** The observer events an effective-pause edge calls for: [pause] on a
    false-to-true edge, [resume] on a true-to-false edge, nothing otherwise. *)
Definition edgeEvents (before after : bool) : list Emission :=
  if negb before && after then [event "pause"]
  else if before && negb after then [event "resume"]
  else [].

(** A call on [c] whose request settled with [resp] was turned down with an
    invalid-state failure and placed nothing on the channel. *)
Definition rejectedWithoutRequest {A : Type} (op : t -> Async A)
    (c : t) (resp : Response) : Prop :=
  (exists msg, snd (settle resp (op c)) = Rejected (mkError "InvalidStateError" msg))
  /\ requests (fst (settle resp (op c))) = requests c.

(** A call on [c] whose request failed with [e]: the caller gets [e], and the
    Consumer is [c] with the request placed and nothing else changed; spelled
    out for the fields the methods assign and for the observer. *)
Definition failsCleanly {A : Type} (op : t -> Async A) (method : string)
    (data : Js.value) (c : t) (e : Error) : Prop :=
  let c' := fst (settle (Rejected e) (op c)) in
  snd (settle (Rejected e) (op c)) = Rejected e
  /\ c' = channelRequest method data c
  /\ _paused c' = _paused c
  /\ _priority c' = _priority c
  /\ _preferredLayers c' = _preferredLayers c
  /\ observerEvents c' = observerEvents c.

(** The number of closings still observable from a state: the observer
    [close] events already emitted, plus one while the Consumer is open. *)
Definition closeBudget (c : t) : nat :=
  countNamed "close" (observerEvents c) + (if _closed c then 0 else 1).

(** One while the Consumer is open, zero once it is closed. *)
Definition openCredit (c : t) : nat := if _closed c then 0 else 1.

(** The requests of a given method among those placed. *)
Definition countMethod (method : string) (reqs : list Request) : nat :=
  length (filter (fun r => String.eqb (req_method r) method) reqs).

(** The event names the channel listener has a case for. *)
Definition channelEvents : list string :=
  ["producerclose"; "producerpause"; "producerresume"; "score";
   "layerschange"; "trace"].

(** Pauses seen by the observer minus resumes seen by it, corrected by the
    current effective pause: the quantity every call and notification
    conserves. *)
Definition pauseBalance (c : t) : Z :=
  Z.of_nat (countNamed "pause" (observerEvents c))
  - Z.of_nat (countNamed "resume" (observerEvents c))
  - (if effectivelyPaused c then 1 else 0).

(** The same for the peer flag and the local [producerpause] and
    [producerresume] events. *)
Definition peerBalance (c : t) : Z :=
  Z.of_nat (countNamed "producerpause" (localEvents c))
  - Z.of_nat (countNamed "producerresume" (localEvents c))
  - (if _producerPaused c then 1 else 0).

(** The local events that announce a closing, one name per trigger, plus the
    closing still to come. *)
Definition closingSignals (c : t) : nat :=
  countNamed "@close" (localEvents c)
  + countNamed "transportclose" (localEvents c)
  + countNamed "producerclose" (localEvents c)
  + openCredit c.

(** The fields a notification payload or a response may replace. *)
Definition controlState (c : t) : bool * bool * bool * Js.value * Js.value :=
  (_closed c, _paused c, _producerPaused c, _priority c, _preferredLayers c).

(** The events meant for monitoring that carry a payload. *)
Definition monitored (e : Emission) : bool :=
  named "score" e || named "layerschange" e || named "trace" e.

(** The payload of the latest event called [name] in a sequence of events,
    [init] when there is none. *)
Definition latest (name : string) (events : list Emission) (init : Js.value)
    : Js.value :=
  fold_left
    (fun acc e => if named name e then hd Js.Undefined (ev_args e) else acc)
    events init.

(** The observer has received the monitored events emitted locally, the same
    ones in the same order. *)
Definition mirrors (c : t) : Prop :=
  filter monitored (observerEvents c) = filter monitored (localEvents c).

(** The score and the current layers are the payloads of the latest local
    [score] and [layerschange] events, or the initial values [score0] and
    undefined when there was none. *)
Definition snapshotsFollow (score0 : Js.value) (c : t) : Prop :=
  score c = latest "score" (localEvents c) score0
  /\ currentLayers c = latest "layerschange" (localEvents c) Js.Undefined.

(** A freshly constructed Consumer used to exercise the statements. *)
Definition sampleInternal : Internal := mkInternal "router-1" "transport-1" "consumer-1" "producer-1".

Definition sample : t :=
  constructor sampleInternal (mkData video Js.Null simple)
    (Channel.mk [] []) (PayloadChannel.mk [])
    (Js.Object [("room", Js.Str "lobby")]) false false Js.Undefined Js.Undefined.

(** ** Basic facts *)

Lemma sample_is_open_and_subscribed :
  _closed sample = false /\ subscribed sample = true
  /\ _paused sample = false /\ _producerPaused sample = false.
Proof. repeat split; reflexivity. Qed.

(** ** Pause and resume *)

Section PauseResume.

Variable c : t.

Lemma pause_edge (resp : Response) :
  let c' := fst (settle resp (pause c)) in
  observerEvents c' =
  observerEvents c ++ edgeEvents (effectivelyPaused c) (effectivelyPaused c').
Proof.
  destruct c as [i d ch pch cl ad p q pr sc pl cu ob em lg].
  destruct resp as [v|e]; cbn.
  - destruct p, q; cbn; now rewrite ?app_nil_r.
  - unfold edgeEvents, effectivelyPaused; cbn.
    destruct (p || q); cbn; now rewrite app_nil_r.
Qed.

Lemma resume_edge (resp : Response) :
  let c' := fst (settle resp (resume c)) in
  observerEvents c' =
  observerEvents c ++ edgeEvents (effectivelyPaused c) (effectivelyPaused c').
Proof.
  destruct c as [i d ch pch cl ad p q pr sc pl cu ob em lg].
  destruct resp as [v|e]; cbn.
  - destruct p, q; cbn; now rewrite ?app_nil_r.
  - unfold edgeEvents, effectivelyPaused; cbn.
    destruct (p || q); cbn; now rewrite app_nil_r.
Qed.

Lemma producerpause_edge (data : Js.value) :
  let c' := onChannelNotification "producerpause" data c in
  observerEvents c' =
  observerEvents c ++ edgeEvents (effectivelyPaused c) (effectivelyPaused c').
Proof.
  destruct c as [i d ch pch cl ad p q pr sc pl cu ob em lg].
  unfold onChannelNotification; cbn.
  destruct p, q; cbn; now rewrite ?app_nil_r.
Qed.

Lemma producerresume_edge (data : Js.value) :
  let c' := onChannelNotification "producerresume" data c in
  observerEvents c' =
  observerEvents c ++ edgeEvents (effectivelyPaused c) (effectivelyPaused c').
Proof.
  destruct c as [i d ch pch cl ad p q pr sc pl cu ob em lg].
  unfold onChannelNotification; cbn.
  destruct p, q; cbn; now rewrite ?app_nil_r.
Qed.

End PauseResume.

(** C1. Effective-pause edge rule.  With P the own-pause flag and Q the
    peer-pause flag, [pause()], [resume()] (whatever their request settles
    to, nothing else reaching the Consumer in between) and the [producerpause]
    and [producerresume] notifications append to the observer exactly the
    events the edge of [P || Q] calls for: [pause] iff it goes from false to
    true, [resume] iff it goes from true to false, nothing otherwise.  From
    P = Q = false, the sequence pause(), producerpause, resume(),
    producerresume (both requests succeeding) emits [pause] at pause(),
    nothing at producerpause and resume(), and [resume] at producerresume. *)
Theorem effective_pause_edge_rule :
  (forall c resp,
      let c' := fst (settle resp (pause c)) in
      observerEvents c' =
      observerEvents c ++ edgeEvents (effectivelyPaused c) (effectivelyPaused c'))
  /\ (forall c resp,
      let c' := fst (settle resp (resume c)) in
      observerEvents c' =
      observerEvents c ++ edgeEvents (effectivelyPaused c) (effectivelyPaused c'))
  /\ (forall c data,
      let c' := onChannelNotification "producerpause" data c in
      observerEvents c' =
      observerEvents c ++ edgeEvents (effectivelyPaused c) (effectivelyPaused c'))
  /\ (forall c data,
      let c' := onChannelNotification "producerresume" data c in
      observerEvents c' =
      observerEvents c ++ edgeEvents (effectivelyPaused c) (effectivelyPaused c'))
  /\ (forall c v1 v2 d1 d2,
      _paused c = false -> _producerPaused c = false ->
      let c1 := fst (settle (Fulfilled v1) (pause c)) in
      let c2 := onChannelNotification "producerpause" d1 c1 in
      let c3 := fst (settle (Fulfilled v2) (resume c2)) in
      let c4 := onChannelNotification "producerresume" d2 c3 in
      observerEvents c1 = observerEvents c ++ [event "pause"]
      /\ observerEvents c2 = observerEvents c1
      /\ observerEvents c3 = observerEvents c2
      /\ observerEvents c4 = observerEvents c3 ++ [event "resume"]).
Proof.
  split; [exact pause_edge|].
  split; [exact resume_edge|].
  split; [exact producerpause_edge|].
  split; [exact producerresume_edge|].
  intros c v1 v2 d1 d2 HP HQ.
  destruct c as [i d ch pch cl ad p q pr sc pl cu ob em lg].
  cbn in HP, HQ; subst p q.
  repeat split.
Qed.

Lemma effective_pause_edge_rule_witness :
  let c1 := fst (settle (Fulfilled Js.Undefined) (pause sample)) in
  let c2 := onChannelNotification "producerpause" Js.Undefined c1 in
  let c3 := fst (settle (Fulfilled Js.Undefined) (resume c2)) in
  let c4 := onChannelNotification "producerresume" Js.Undefined c3 in
  observerEvents c1 = observerEvents sample ++ [event "pause"]
  /\ observerEvents c2 = observerEvents c1
  /\ observerEvents c3 = observerEvents c2
  /\ observerEvents c4 = observerEvents c3 ++ [event "resume"].
Proof.
  destruct effective_pause_edge_rule as (_ & _ & _ & _ & Hseq).
  apply (Hseq sample Js.Undefined Js.Undefined Js.Undefined Js.Undefined);
    reflexivity.
Defined.

(** The edge rule is about a call taken as a whole.  A [producerpause]
    handled between the request of [pause()] and its response emits [pause],
    and the continuation of [pause()], which decided before the [await], emits
    it once more. *)
Remark pause_overlapped_by_producerpause :
  let '(c1, Awaiting k) := pause sample in
  let c2 := onChannelNotification "producerpause" Js.Undefined c1 in
  let c3 := fst (k (Fulfilled Js.Undefined) c2) in
  observerEvents c3 = [event "pause"; event "pause"].
Proof. reflexivity. Qed.

(** ** Calls on a closed Consumer *)

Section RequestPlaced.

Variables (c : t) (resp : Response).

Lemma pause_requests :
  requests (fst (settle resp (pause c))) =
  requests c ++ [mkRequest "consumer.pause" (_internal c) Js.Undefined].
Proof.
  destruct c as [i d ch pch cl ad p q pr sc pl cu ob em lg].
  destruct resp as [v|e]; cbn; [destruct (p || q)|]; reflexivity.
Qed.

Lemma resume_requests :
  requests (fst (settle resp (resume c))) =
  requests c ++ [mkRequest "consumer.resume" (_internal c) Js.Undefined].
Proof.
  destruct c as [i d ch pch cl ad p q pr sc pl cu ob em lg].
  destruct resp as [v|e]; cbn; [destruct (p || q), q|]; reflexivity.
Qed.

Lemma setPriority_requests (n : Z) :
  requests (fst (settle resp (setPriority n c))) =
  requests c ++ [mkRequest "consumer.setPriority" (_internal c)
                   (Js.Object [("priority", Js.Number n)])].
Proof.
  destruct c as [i d ch pch cl ad p q pr sc pl cu ob em lg].
  destruct resp as [v|e]; cbn; [destruct (Js.get v "priority")|]; reflexivity.
Qed.

Lemma unsetPriority_requests :
  requests (fst (settle resp (unsetPriority c))) =
  requests c ++ [mkRequest "consumer.setPriority" (_internal c)
                   (Js.Object [("priority", Js.Number 1)])].
Proof.
  destruct c as [i d ch pch cl ad p q pr sc pl cu ob em lg].
  destruct resp as [v|e]; cbn; [destruct (Js.get v "priority")|]; reflexivity.
Qed.

Lemma setPreferredLayers_requests (layers : ConsumerLayers) :
  requests (fst (settle resp (setPreferredLayers layers c))) =
  requests c ++ [mkRequest "consumer.setPreferredLayers" (_internal c)
                   (Js.Object [("spatialLayer", Js.Number (spatialLayer layers));
                               ("temporalLayer", optNumber (temporalLayer layers))])].
Proof.
  destruct c as [i d ch pch cl ad p q pr sc pl cu ob em lg].
  destruct resp as [v|e]; reflexivity.
Qed.

Lemma requestKeyFrame_requests :
  requests (fst (settle resp (requestKeyFrame c))) =
  requests c ++ [mkRequest "consumer.requestKeyFrame" (_internal c) Js.Undefined].
Proof.
  destruct c as [i d ch pch cl ad p q pr sc pl cu ob em lg].
  destruct resp as [v|e]; reflexivity.
Qed.

Lemma dump_requests :
  requests (fst (settle resp (dump c))) =
  requests c ++ [mkRequest "consumer.dump" (_internal c) Js.Undefined].
Proof. reflexivity. Qed.

Lemma getStats_requests :
  requests (fst (settle resp (getStats c))) =
  requests c ++ [mkRequest "consumer.getStats" (_internal c) Js.Undefined].
Proof. reflexivity. Qed.

End RequestPlaced.

(** C2, as stated, fails: on a closed Consumer [pause()] is not turned down.
    The closed sample Consumer places the request and, the worker answering,
    the call succeeds. *)
Lemma closed_pause_not_rejected :
  ~ (forall c resp, _closed c = true -> rejectedWithoutRequest pause c resp).
Proof.
  intros H.
  destruct (H (close sample) (Fulfilled Js.Undefined) eq_refl) as [_ Hreq].
  discriminate Hreq.
Qed.

(** C2, amended.  A closed Consumer makes no check of its own: each of
    pause(), resume(), setPriority(), setPreferredLayers(), requestKeyFrame(),
    dump() and getStats() places its request on the channel exactly as on an
    open Consumer, and when that request fails the call fails with the
    request's own failure. *)
Theorem closed_consumer_places_requests :
  forall c, _closed c = true ->
  (forall resp,
      requests (fst (settle resp (pause c))) =
      requests c ++ [mkRequest "consumer.pause" (_internal c) Js.Undefined])
  /\ (forall resp,
      requests (fst (settle resp (resume c))) =
      requests c ++ [mkRequest "consumer.resume" (_internal c) Js.Undefined])
  /\ (forall n resp,
      requests (fst (settle resp (setPriority n c))) =
      requests c ++ [mkRequest "consumer.setPriority" (_internal c)
                       (Js.Object [("priority", Js.Number n)])])
  /\ (forall layers resp,
      requests (fst (settle resp (setPreferredLayers layers c))) =
      requests c ++ [mkRequest "consumer.setPreferredLayers" (_internal c)
                       (Js.Object [("spatialLayer", Js.Number (spatialLayer layers));
                                   ("temporalLayer", optNumber (temporalLayer layers))])])
  /\ (forall resp,
      requests (fst (settle resp (requestKeyFrame c))) =
      requests c ++ [mkRequest "consumer.requestKeyFrame" (_internal c) Js.Undefined])
  /\ (forall resp,
      requests (fst (settle resp (dump c))) =
      requests c ++ [mkRequest "consumer.dump" (_internal c) Js.Undefined])
  /\ (forall resp,
      requests (fst (settle resp (getStats c))) =
      requests c ++ [mkRequest "consumer.getStats" (_internal c) Js.Undefined])
  /\ (forall e n layers,
      snd (settle (Rejected e) (pause c)) = Rejected e
      /\ snd (settle (Rejected e) (resume c)) = Rejected e
      /\ snd (settle (Rejected e) (setPriority n c)) = Rejected e
      /\ snd (settle (Rejected e) (setPreferredLayers layers c)) = Rejected e
      /\ snd (settle (Rejected e) (requestKeyFrame c)) = Rejected e
      /\ snd (settle (Rejected e) (dump c)) = Rejected e
      /\ snd (settle (Rejected e) (getStats c)) = Rejected e).
Proof.
  intros c _.
  split; [intros; apply pause_requests|].
  split; [intros; apply resume_requests|].
  split; [intros; apply setPriority_requests|].
  split; [intros; apply setPreferredLayers_requests|].
  split; [intros; apply requestKeyFrame_requests|].
  split; [intros; apply dump_requests|].
  split; [intros; apply getStats_requests|].
  intros e n layers; repeat split.
Qed.

Lemma closed_consumer_places_requests_witness :
  _closed (close sample) = true
  /\ requests (fst (settle (Fulfilled Js.Undefined) (pause (close sample)))) =
     requests (close sample)
       ++ [mkRequest "consumer.pause" sampleInternal Js.Undefined].
Proof.
  split; [reflexivity|].
  destruct (closed_consumer_places_requests (close sample) eq_refl) as (Hp & _).
  exact (Hp (Fulfilled Js.Undefined)).
Defined.

(** ** Closing *)

Lemma no_listener_left (id : string) (ls : list string) :
  existsb (String.eqb id) (filter (fun l => negb (String.eqb l id)) ls) = false.
Proof.
  induction ls as [|l ls IH]; [reflexivity|].
  cbn [filter].
  destruct (String.eqb l id) eqn:E; cbn [negb]; [exact IH|].
  cbn [existsb]. rewrite String.eqb_sym, E. exact IH.
Qed.

Lemma countNamed_app (name : string) (xs ys : list Emission) :
  countNamed name (xs ++ ys) = countNamed name xs + countNamed name ys.
Proof.
  unfold countNamed. now rewrite filter_app, length_app.
Qed.

Lemma close_when_closed (c : t) : _closed c = true -> close c = c.
Proof. unfold close. now intros ->. Qed.

Lemma transportClosed_when_closed (c : t) :
  _closed c = true -> transportClosed c = c.
Proof. unfold transportClosed. now intros ->. Qed.

Lemma close_closes (c : t) : _closed (close c) = true.
Proof.
  unfold close. destruct (_closed c) eqn:E; [exact E|reflexivity].
Qed.

Lemma transportClosed_closes (c : t) : _closed (transportClosed c) = true.
Proof.
  unfold transportClosed. destruct (_closed c) eqn:E; [exact E|reflexivity].
Qed.

(** C3. [close()] is idempotent.  A second call changes nothing.  On an open
    Consumer the first call sets [closed], removes the notification
    subscription, emits [@close] locally and [close] on the observer and
    places one [consumer.close] request, so two calls leave exactly one
    observer [close] event and one [consumer.close] request.  A failure of
    that request is caught: the chained promise is fulfilled and the
    Consumer is untouched. *)
Theorem close_is_idempotent :
  (forall c, close (close c) = close c)
  /\ (forall c, _closed c = false ->
      let c' := close c in
      _closed c' = true
      /\ subscribed c' = false
      /\ localEvents c' = localEvents c ++ [event "@close"]
      /\ observerEvents c' = observerEvents c ++ [event "close"]
      /\ requests c' =
         requests c ++ [mkRequest "consumer.close" (_internal c) Js.Undefined]
      /\ observerEvents (close c') = observerEvents c ++ [event "close"]
      /\ requests (close c') =
         requests c ++ [mkRequest "consumer.close" (_internal c) Js.Undefined])
  /\ (forall e c, closeRequestCatch (Rejected e) c = (c, Fulfilled Js.Undefined)).
Proof.
  split; [intros c; apply close_when_closed, close_closes|].
  split; [|reflexivity].
  intros c Hopen c'.
  assert (Hagain : close c' = c') by apply close_when_closed, close_closes.
  rewrite Hagain. subst c'.
  destruct c as [i d ch pch cl ad p q pr sc pl cu ob em lg].
  cbn in Hopen; subst cl.
  repeat split.
  apply no_listener_left.
Qed.

Lemma close_is_idempotent_witness :
  observerEvents (close (close sample)) = [event "close"]
  /\ requests (close (close sample)) =
     [mkRequest "consumer.close" sampleInternal Js.Undefined].
Proof.
  destruct close_is_idempotent as (_ & Hfirst & _).
  destruct (Hfirst sample eq_refl) as (_ & _ & _ & _ & _ & Hobs & Hreq).
  split; [exact Hobs | exact Hreq].
Defined.

(** C4. [transportClosed()] places no request.  On a closed Consumer it does
    nothing.  On an open one it sets [closed], removes the notification
    subscription, emits [transportclose] (and nothing named [close]) locally
    and [close] on the observer. *)
Theorem transportClosed_is_local :
  (forall c, requests (transportClosed c) = requests c)
  /\ (forall c,
      countNamed "close" (localEvents (transportClosed c)) =
      countNamed "close" (localEvents c))
  /\ (forall c, _closed c = true -> transportClosed c = c)
  /\ (forall c, _closed c = false ->
      let c' := transportClosed c in
      _closed c' = true
      /\ subscribed c' = false
      /\ localEvents c' = localEvents c ++ [event "transportclose"]
      /\ observerEvents c' = observerEvents c ++ [event "close"]).
Proof.
  split.
  { intros c. unfold transportClosed. now destruct (_closed c). }
  split.
  { intros c. unfold transportClosed. destruct (_closed c); [reflexivity|].
    unfold localEvents, observerSafeEmit, safeEmit; cbn -[countNamed].
    rewrite countNamed_app. cbn. lia. }
  split; [exact transportClosed_when_closed|].
  intros c Hopen c'. subst c'.
  destruct c as [i d ch pch cl ad p q pr sc pl cu ob em lg].
  cbn in Hopen; subst cl.
  repeat split.
  apply no_listener_left.
Qed.

Lemma transportClosed_is_local_witness :
  localEvents (transportClosed sample) = [event "transportclose"]
  /\ observerEvents (transportClosed sample) = [event "close"]
  /\ transportClosed (transportClosed sample) = transportClosed sample.
Proof.
  destruct transportClosed_is_local as (_ & _ & Hclosed & Hopen).
  destruct (Hopen sample eq_refl) as (Hc & _ & Hloc & Hobs).
  split; [exact Hloc|].
  split; [exact Hobs|].
  exact (Hclosed (transportClosed sample) Hc).
Defined.

(** ** One observable closing *)

Lemma invokeEach_fixed {L : Type} (ls : list L) (h : t -> t) (c : t) :
  h c = c -> invokeEach ls h c = c.
Proof.
  intros Hfix. induction ls as [|l ls IH]; cbn; [reflexivity|].
  now rewrite Hfix.
Qed.

Lemma invokeEach_preserves {L X : Type} (f : t -> X) (h : t -> t) :
  (forall c, f (h c) = f c) ->
  forall (ls : list L) c, f (invokeEach ls h c) = f c.
Proof.
  intros Hpres ls. induction ls as [|l ls IH]; intros c; cbn; [reflexivity|].
  now rewrite IH.
Qed.

Lemma producerclose_when_closed (c : t) (data : Js.value) :
  _closed c = true -> onChannelNotification "producerclose" data c = c.
Proof. unfold onChannelNotification; cbn. now intros ->. Qed.

Ltac budget :=
  unfold closeBudget, observerEvents, observerSafeEmit, safeEmit, emit,
    loggerError, channelRemoveAllListeners, channelRequest;
  cbn -[countNamed];
  rewrite ?countNamed_app; cbn; lia.

Lemma close_budget (c : t) : closeBudget (close c) = closeBudget c.
Proof.
  unfold close. destruct (_closed c) eqn:E; [reflexivity|].
  destruct c; cbn in E; subst; budget.
Qed.

Lemma transportClosed_budget (c : t) :
  closeBudget (transportClosed c) = closeBudget c.
Proof.
  unfold transportClosed. destruct (_closed c) eqn:E; [reflexivity|].
  destruct c; cbn in E; subst; budget.
Qed.

Lemma onChannelNotification_budget (event : string) (data : Js.value) (c : t) :
  closeBudget (onChannelNotification event data c) = closeBudget c.
Proof.
  unfold onChannelNotification.
  destruct c as [i d ch pch cl ad p q pr sc pl cu ob em lg].
  repeat match goal with
         | |- context [String.eqb event ?s] => destruct (String.eqb event s)
         end;
    cbn [_closed _producerPaused _paused];
    try (destruct cl); try (destruct q); try (destruct p);
    try reflexivity; budget.
Qed.

Lemma onPayloadNotification_budget (event : string) (data : Js.value)
    (payload : list byte) (c : t) :
  closeBudget (onPayloadNotification event data payload c) = closeBudget c.
Proof.
  unfold onPayloadNotification.
  destruct c as [i d ch pch cl ad p q pr sc pl cu ob em lg].
  destruct (String.eqb event "rtp"); cbn [_closed];
    try (destruct cl); try reflexivity; budget.
Qed.

Lemma step_budget (a : Action) (c : t) : closeBudget (step a c) = closeBudget c.
Proof.
  destruct a; cbn [step].
  - apply close_budget.
  - apply transportClosed_budget.
  - reflexivity.
  - reflexivity.
  - destruct c as [i d ch pch cl ad p q pr sc pl cu ob em lg].
    destruct resp; cbn; [destruct p, q|]; budget.
  - destruct c as [i d ch pch cl ad p q pr sc pl cu ob em lg].
    destruct resp; cbn; [destruct p, q|]; budget.
  - destruct resp; reflexivity.
  - destruct resp as [v|e]; cbn; [destruct (Js.get v "priority")|]; reflexivity.
  - destruct resp as [v|e]; cbn; [destruct (Js.get v "priority")|]; reflexivity.
  - destruct resp; reflexivity.
  - destruct resp; reflexivity.
  - reflexivity.
  - apply invokeEach_preserves. apply onChannelNotification_budget.
  - apply invokeEach_preserves. apply onPayloadNotification_budget.
Qed.

Lemma run_budget (history : list Action) :
  forall c, closeBudget (run history c) = closeBudget c.
Proof.
  induction history as [|a rest IH]; intros c; cbn; [reflexivity|].
  now rewrite IH, step_budget.
Qed.

(** C5. On a closed Consumer a [producerclose] notification, whether handed
    to the handler or delivered through the channel, leaves the whole state
    as it was: no event, no field change, nothing logged.  Over any history
    of calls and notifications the observer [close] events plus the one
    closing still possible stay constant, so a Consumer shows at most one
    [close] since its construction and none after it is closed. *)
Theorem producerclose_after_close_is_noop :
  (forall c data, _closed c = true ->
      onChannelNotification "producerclose" data c = c)
  /\ (forall c target data, _closed c = true ->
      channelDeliver target "producerclose" data c = c)
  /\ (forall history c, closeBudget (run history c) = closeBudget c)
  /\ (forall history c, _closed c = true ->
      countNamed "close" (observerEvents (run history c)) <=
      countNamed "close" (observerEvents c))
  /\ (forall history internal data channel payloadChannel appData paused
             producerPaused score preferredLayers,
      countNamed "close"
        (observerEvents
           (run history
              (constructor internal data channel payloadChannel appData paused
                 producerPaused score preferredLayers))) <= 1).
Proof.
  split; [intros; now apply producerclose_when_closed|].
  split.
  { intros c target data Hc. apply invokeEach_fixed.
    now apply producerclose_when_closed. }
  split; [intros; apply run_budget|].
  split.
  { intros history c Hc. pose proof (run_budget history c) as H.
    unfold closeBudget in H. rewrite Hc in H. lia. }
  intros history internal data channel payloadChannel appData paused
         producerPaused score preferredLayers.
  match goal with |- context [run history ?c0] =>
    pose proof (run_budget history c0) as H
  end.
  unfold closeBudget in H at 2. cbn in H.
  unfold closeBudget in H. lia.
Qed.

Lemma producerclose_after_close_is_noop_witness :
  channelDeliver "consumer-1" "producerclose" Js.Undefined (close sample)
  = close sample
  /\ onChannelNotification "producerclose" Js.Undefined (transportClosed sample)
     = transportClosed sample.
Proof.
  destruct producerclose_after_close_is_noop as (Hh & Hd & _).
  split.
  - apply (Hd (close sample) "consumer-1" Js.Undefined). reflexivity.
  - apply (Hh (transportClosed sample) Js.Undefined). reflexivity.
Defined.

(** ** Failed requests *)

(** C6. Request-failure atomicity.  When the request of pause(), resume(),
    setPriority(), unsetPriority() or setPreferredLayers() fails, the call
    fails with the same error, [paused], [priority] and [preferredLayers]
    keep their values, the observer receives nothing, and the only trace left
    on the Consumer is the request itself. *)
Theorem failed_request_leaves_state :
  forall c e,
  failsCleanly pause "consumer.pause" Js.Undefined c e
  /\ failsCleanly resume "consumer.resume" Js.Undefined c e
  /\ (forall n,
      failsCleanly (setPriority n) "consumer.setPriority"
        (Js.Object [("priority", Js.Number n)]) c e)
  /\ failsCleanly unsetPriority "consumer.setPriority"
        (Js.Object [("priority", Js.Number 1)]) c e
  /\ (forall layers,
      failsCleanly (setPreferredLayers layers) "consumer.setPreferredLayers"
        (Js.Object [("spatialLayer", Js.Number (spatialLayer layers));
                    ("temporalLayer", optNumber (temporalLayer layers))]) c e).
Proof.
  intros c e. unfold failsCleanly.
  repeat split.
Qed.

(** ** Payload notifications *)

Lemma rtp_when_closed (c : t) (data : Js.value) (payload : list byte) :
  _closed c = true -> onPayloadNotification "rtp" data payload c = c.
Proof. unfold onPayloadNotification; cbn. now intros ->. Qed.

(** [close()] leaves the payload-channel subscription in place, so an [rtp]
    notification still reaches the handler of a closed Consumer. *)
Remark payload_subscription_survives_close :
  PayloadChannel.listenersOf (id sample) (_payloadChannel (close sample))
  = [id sample].
Proof. reflexivity. Qed.

(** C7. An [rtp] payload notification reaching an open Consumer is re-emitted
    locally as [rtp] with the payload and changes nothing else; reaching a
    closed Consumer, by the handler or through the payload channel, it leaves
    the whole state as it was: nothing emitted, nothing logged. *)
Theorem rtp_only_while_open :
  (forall c data payload, _closed c = false ->
      let c' := onPayloadNotification "rtp" data payload c in
      c' = safeEmit "rtp" [Js.Buffer payload] c
      /\ localEvents c' = localEvents c ++ [mkEmission "rtp" [Js.Buffer payload]]
      /\ observerEvents c' = observerEvents c
      /\ _logged c' = _logged c)
  /\ (forall c data payload, _closed c = true ->
      onPayloadNotification "rtp" data payload c = c)
  /\ (forall c target data payload, _closed c = true ->
      payloadDeliver target "rtp" data payload c = c).
Proof.
  split.
  { intros c data payload Hopen c'. subst c'.
    unfold onPayloadNotification; cbn. rewrite Hopen. repeat split. }
  split; [intros; now apply rtp_when_closed|].
  intros c target data payload Hc. apply invokeEach_fixed.
  now apply rtp_when_closed.
Qed.

Lemma rtp_only_while_open_witness :
  localEvents (payloadDeliver "consumer-1" "rtp" Js.Undefined [x80; x60] sample)
  = [mkEmission "rtp" [Js.Buffer [x80; x60]]]
  /\ payloadDeliver "consumer-1" "rtp" Js.Undefined [x80; x60] (close sample)
     = close sample.
Proof.
  destruct rtp_only_while_open as (Hopen & _ & Hclosed).
  split.
  - destruct (Hopen sample Js.Undefined [x80; x60] eq_refl) as (_ & Hloc & _).
    exact Hloc.
  - apply (Hclosed (close sample) "consumer-1" Js.Undefined [x80; x60]).
    reflexivity.
Defined.

(** ** Priority *)

(** C8. [setPriority(n)] places a request carrying priority [n] and
    [unsetPriority()] one carrying priority 1, whatever the response; when
    the response carries a priority [p], the local priority becomes [p]. *)
Theorem priority_follows_worker_echo :
  forall c n,
  (forall resp,
      requests (fst (settle resp (setPriority n c))) =
      requests c ++ [mkRequest "consumer.setPriority" (_internal c)
                       (Js.Object [("priority", Js.Number n)])])
  /\ (forall resp,
      requests (fst (settle resp (unsetPriority c))) =
      requests c ++ [mkRequest "consumer.setPriority" (_internal c)
                       (Js.Object [("priority", Js.Number 1)])])
  /\ (forall data p, Js.get data "priority" = Some p ->
      settle (Fulfilled data) (setPriority n c) =
        (with_priority p
           (channelRequest "consumer.setPriority"
              (Js.Object [("priority", Js.Number n)]) c), Fulfilled tt)
      /\ priority (fst (settle (Fulfilled data) (setPriority n c))) = p
      /\ priority (fst (settle (Fulfilled data) (unsetPriority c))) = p).
Proof.
  intros c n.
  split; [intros; apply setPriority_requests|].
  split; [intros; apply unsetPriority_requests|].
  intros data p Hecho. cbn. rewrite Hecho. repeat split.
Qed.

Lemma priority_follows_worker_echo_witness :
  priority
    (fst (settle (Fulfilled (Js.Object [("priority", Js.Number 7)]))
            (setPriority 5 sample))) = Js.Number 7
  /\ priority
       (fst (settle (Fulfilled (Js.Object [("priority", Js.Number 3)]))
               (unsetPriority sample))) = Js.Number 3.
Proof.
  split.
  - destruct (priority_follows_worker_echo sample 5) as (_ & _ & Hecho).
    destruct (Hecho (Js.Object [("priority", Js.Number 7)]) (Js.Number 7) eq_refl)
      as (_ & Hset & _).
    exact Hset.
  - destruct (priority_follows_worker_echo sample 5) as (_ & _ & Hecho).
    destruct (Hecho (Js.Object [("priority", Js.Number 3)]) (Js.Number 3) eq_refl)
      as (_ & _ & Hunset).
    exact Hunset.
Defined.

(** ** Redundant peer-pause notifications *)

Lemma invokeEach_collapse {L : Type} (h : t -> t) :
  (forall x, h (h x) = h x) ->
  forall (ls : list L) (l : L) c, invokeEach (l :: ls) h c = h c.
Proof.
  intros Hidem ls. induction ls as [|l' ls IH]; intros l c; [reflexivity|].
  change (invokeEach (l :: l' :: ls) h c) with (invokeEach (l' :: ls) h (h c)).
  now rewrite IH, Hidem.
Qed.

Lemma peer_pause_keeps_channel (event : string) (data : Js.value) (c : t) :
  event = "producerpause" \/ event = "producerresume" ->
  _channel (onChannelNotification event data c) = _channel c.
Proof.
  destruct c as [i d ch pch cl ad p q pr sc pl cu ob em lg].
  intros [-> | ->]; unfold onChannelNotification; cbn; destruct p, q; reflexivity.
Qed.

Lemma producerpause_twice (c : t) (d1 d2 : Js.value) :
  onChannelNotification "producerpause" d2
    (onChannelNotification "producerpause" d1 c)
  = onChannelNotification "producerpause" d1 c.
Proof.
  destruct c as [i d ch pch cl ad p q pr sc pl cu ob em lg].
  unfold onChannelNotification; cbn. destruct p, q; reflexivity.
Qed.

Lemma producerresume_twice (c : t) (d1 d2 : Js.value) :
  onChannelNotification "producerresume" d2
    (onChannelNotification "producerresume" d1 c)
  = onChannelNotification "producerresume" d1 c.
Proof.
  destruct c as [i d ch pch cl ad p q pr sc pl cu ob em lg].
  unfold onChannelNotification; cbn. destruct p, q; reflexivity.
Qed.

Lemma deliver_twice (target event : string) (data : Js.value) (c : t) :
  event = "producerpause" \/ event = "producerresume" ->
  channelDeliver target event data (channelDeliver target event data c)
  = channelDeliver target event data c.
Proof.
  intros Hev.
  assert (Hidem : forall x,
             onChannelNotification event data (onChannelNotification event data x)
             = onChannelNotification event data x).
  { destruct Hev as [-> | ->]; intros x;
      [apply producerpause_twice | apply producerresume_twice]. }
  unfold channelDeliver.
  destruct (Channel.listenersOf target (_channel c)) as [|l ls] eqn:Els.
  - cbn. now rewrite Els.
  - rewrite (invokeEach_collapse _ Hidem).
    rewrite (peer_pause_keeps_channel _ _ _ Hev), Els.
    now rewrite (invokeEach_collapse _ Hidem), Hidem.
Qed.

(** C9. A [producerpause] notification on a Consumer whose [producerPaused]
    is already true, and a [producerresume] on one whose [producerPaused] is
    already false, leave the whole state as it was; so handling either
    notification twice in a row, or having the channel deliver it twice in a
    row, gives the state reached the first time. *)
Theorem redundant_peer_pause_filtered :
  (forall c data, _producerPaused c = true ->
      onChannelNotification "producerpause" data c = c)
  /\ (forall c data, _producerPaused c = false ->
      onChannelNotification "producerresume" data c = c)
  /\ (forall c d1 d2,
      onChannelNotification "producerpause" d2
        (onChannelNotification "producerpause" d1 c)
      = onChannelNotification "producerpause" d1 c)
  /\ (forall c d1 d2,
      onChannelNotification "producerresume" d2
        (onChannelNotification "producerresume" d1 c)
      = onChannelNotification "producerresume" d1 c)
  /\ (forall c target data,
      channelDeliver target "producerpause" data
        (channelDeliver target "producerpause" data c)
      = channelDeliver target "producerpause" data c)
  /\ (forall c target data,
      channelDeliver target "producerresume" data
        (channelDeliver target "producerresume" data c)
      = channelDeliver target "producerresume" data c).
Proof.
  split.
  { intros c data Hq. unfold onChannelNotification; cbn. now rewrite Hq. }
  split.
  { intros c data Hq. unfold onChannelNotification; cbn. now rewrite Hq. }
  split; [exact producerpause_twice|].
  split; [exact producerresume_twice|].
  split; intros c target data; apply deliver_twice; [now left | now right].
Qed.

Lemma redundant_peer_pause_filtered_witness :
  onChannelNotification "producerresume" Js.Undefined sample = sample
  /\ onChannelNotification "producerpause" Js.Undefined
       (onChannelNotification "producerpause" Js.Undefined sample)
     = onChannelNotification "producerpause" Js.Undefined sample.
Proof.
  destruct redundant_peer_pause_filtered as (Hpause & Hresume & _).
  split.
  - apply (Hresume sample Js.Undefined). reflexivity.
  - apply (Hpause (onChannelNotification "producerpause" Js.Undefined sample)
             Js.Undefined).
    reflexivity.
Defined.

(** ** Application data *)

Lemma onChannelNotification_appData (event : string) (data : Js.value) (c : t) :
  _appData (onChannelNotification event data c) = _appData c.
Proof.
  unfold onChannelNotification.
  destruct c as [i d ch pch cl ad p q pr sc pl cu ob em lg].
  repeat match goal with
         | |- context [String.eqb event ?s] => destruct (String.eqb event s)
         end;
    cbn [_closed _producerPaused _paused];
    try (destruct cl); try (destruct q); try (destruct p); reflexivity.
Qed.

Lemma onPayloadNotification_appData (event : string) (data : Js.value)
    (payload : list byte) (c : t) :
  _appData (onPayloadNotification event data payload c) = _appData c.
Proof.
  unfold onPayloadNotification.
  destruct (String.eqb event "rtp"); [destruct (_closed c)|]; reflexivity.
Qed.

Lemma step_appData (a : Action) (c : t) : _appData (step a c) = _appData c.
Proof.
  destruct a; cbn [step].
  - unfold close. now destruct (_closed c).
  - unfold transportClosed. now destruct (_closed c).
  - reflexivity.
  - reflexivity.
  - destruct resp; cbn; [destruct (_paused c || _producerPaused c)|]; reflexivity.
  - destruct resp; cbn;
      [destruct ((_paused c || _producerPaused c) && negb (_producerPaused c))|];
      reflexivity.
  - destruct resp; reflexivity.
  - destruct resp as [v|e]; cbn; [destruct (Js.get v "priority")|]; reflexivity.
  - destruct resp as [v|e]; cbn; [destruct (Js.get v "priority")|]; reflexivity.
  - destruct resp; reflexivity.
  - destruct resp; reflexivity.
  - reflexivity.
  - apply invokeEach_preserves. apply onChannelNotification_appData.
  - apply invokeEach_preserves. apply onPayloadNotification_appData.
Qed.

Lemma run_appData (history : list Action) :
  forall c, _appData (run history c) = _appData c.
Proof.
  induction history as [|a rest IH]; intros c; cbn; [reflexivity|].
  now rewrite IH, step_appData.
Qed.

(** C10. Assigning to [appData] throws the error "cannot override appData
    object" and leaves the Consumer, its stored appData included, as it was;
    over any history of calls, assignments and notifications the [appData]
    getter returns the value given to the constructor. *)
Theorem appData_is_write_protected :
  (forall c v,
      set_appData v c =
      (c, Throws (mkError "Error" "cannot override appData object")))
  /\ (forall c v, get_appData (fst (set_appData v c)) = get_appData c)
  /\ (forall history c, get_appData (run history c) = get_appData c)
  /\ (forall history internal data channel payloadChannel appData paused
             producerPaused score preferredLayers,
      get_appData
        (run history
           (constructor internal data channel payloadChannel appData paused
              producerPaused score preferredLayers)) = appData).
Proof.
  split; [reflexivity|].
  split; [reflexivity|].
  split; [intros; apply run_appData|].
  intros. unfold get_appData. now rewrite run_appData.
Qed.

(** * Further properties of the Consumer *)

Ltac handler_cases event :=
  repeat match goal with
         | |- context [String.eqb event ?s] => destruct (String.eqb event s)
         end.

Lemma invokeEach_invariant {L : Type} (P : t -> Prop) (h : t -> t) :
  (forall c, P c -> P (h c)) ->
  forall (ls : list L) c, P c -> P (invokeEach ls h c).
Proof.
  intros Hh ls. induction ls as [|l ls IH]; intros c Hc; cbn; [exact Hc|].
  apply IH, Hh, Hc.
Qed.

Lemma invokeEach_le {L : Type} (f : t -> nat) (h : t -> t) :
  (forall c, f (h c) <= f c) ->
  forall (ls : list L) c, f (invokeEach ls h c) <= f c.
Proof.
  intros Hh ls. induction ls as [|l ls IH]; intros c; cbn; [lia|].
  specialize (IH (h c)). specialize (Hh c). lia.
Qed.

(** ** Closing is permanent *)

Lemma onChannelNotification_stays_closed (event : string) (data : Js.value) (c : t) :
  _closed c = true -> _closed (onChannelNotification event data c) = true.
Proof.
  destruct c as [i d ch pch cl ad p q pr sc pl cu ob em lg].
  cbn. intros ->. unfold onChannelNotification.
  handler_cases event; cbn; try reflexivity; destruct p, q; reflexivity.
Qed.

Lemma onPayloadNotification_stays_closed (event : string) (data : Js.value)
    (payload : list byte) (c : t) :
  _closed c = true -> _closed (onPayloadNotification event data payload c) = true.
Proof.
  intros Hc. unfold onPayloadNotification.
  destruct (String.eqb event "rtp"); [rewrite Hc|]; exact Hc.
Qed.

Lemma step_stays_closed (a : Action) (c : t) :
  _closed c = true -> _closed (step a c) = true.
Proof.
  intros Hc. destruct a; cbn [step].
  - apply close_closes.
  - apply transportClosed_closes.
  - exact Hc.
  - exact Hc.
  - destruct resp; cbn; [destruct (_paused c || _producerPaused c)|]; exact Hc.
  - destruct resp; cbn;
      [destruct ((_paused c || _producerPaused c) && negb (_producerPaused c))|];
      exact Hc.
  - destruct resp; exact Hc.
  - destruct resp as [v|e]; cbn; [destruct (Js.get v "priority")|]; exact Hc.
  - destruct resp as [v|e]; cbn; [destruct (Js.get v "priority")|]; exact Hc.
  - destruct resp; exact Hc.
  - destruct resp; exact Hc.
  - exact Hc.
  - unfold channelDeliver.
    apply (invokeEach_invariant (fun x => _closed x = true)); [|exact Hc].
    intros; now apply onChannelNotification_stays_closed.
  - unfold payloadDeliver.
    apply (invokeEach_invariant (fun x => _closed x = true)); [|exact Hc].
    intros; now apply onPayloadNotification_stays_closed.
Qed.

(** X1. Closing is permanent: no call and no notification, in any number and
    order, brings a closed Consumer back to open. *)
Theorem closed_is_permanent :
  forall history c, _closed c = true -> _closed (run history c) = true.
Proof.
  induction history as [|a rest IH]; intros c Hc; cbn; [exact Hc|].
  apply IH, step_stays_closed, Hc.
Qed.

Lemma closed_is_permanent_witness :
  _closed
    (run [Resume (Fulfilled Js.Undefined);
          ChannelNotification "consumer-1" "score" (Js.Number 9);
          SetPriority 3 (Rejected (mkError "Error" "request failed"))]
       (transportClosed sample)) = true.
Proof.
  apply (closed_is_permanent _ (transportClosed sample)). reflexivity.
Defined.

(** ** The subscription follows the closed flag *)

Lemma not_listening (id0 : string) (ls : list string) :
  existsb (String.eqb id0) ls = false ->
  filter (fun l => String.eqb l id0) ls = [].
Proof.
  induction ls as [|l ls IH]; cbn; [reflexivity|].
  rewrite (String.eqb_sym l id0).
  destruct (String.eqb id0 l); cbn; [discriminate|exact IH].
Qed.

Lemma onChannelNotification_subscription (event : string) (data : Js.value) (c : t) :
  subscribed c = negb (_closed c) ->
  subscribed (onChannelNotification event data c)
  = negb (_closed (onChannelNotification event data c)).
Proof.
  destruct c as [i d ch pch cl ad p q pr sc pl cu ob em lg].
  unfold onChannelNotification, subscribed. cbn. intros H.
  handler_cases event; cbn; try exact H;
    destruct cl, p, q; cbn; try exact H; apply no_listener_left.
Qed.

Lemma onPayloadNotification_subscription (event : string) (data : Js.value)
    (payload : list byte) (c : t) :
  subscribed c = negb (_closed c) ->
  subscribed (onPayloadNotification event data payload c)
  = negb (_closed (onPayloadNotification event data payload c)).
Proof.
  destruct c as [i d ch pch cl ad p q pr sc pl cu ob em lg].
  unfold onPayloadNotification, subscribed. cbn. intros H.
  destruct (String.eqb event "rtp"); [destruct cl|]; exact H.
Qed.

Lemma step_subscription (a : Action) (c : t) :
  subscribed c = negb (_closed c) ->
  subscribed (step a c) = negb (_closed (step a c)).
Proof.
  intros H. destruct a; cbn [step].
  - unfold close. destruct (_closed c) eqn:E; [now rewrite E in *|].
    unfold subscribed; cbn. apply no_listener_left.
  - unfold transportClosed. destruct (_closed c) eqn:E; [now rewrite E in *|].
    unfold subscribed; cbn. apply no_listener_left.
  - exact H.
  - exact H.
  - destruct resp; cbn; [destruct (_paused c || _producerPaused c)|]; exact H.
  - destruct resp; cbn;
      [destruct ((_paused c || _producerPaused c) && negb (_producerPaused c))|];
      exact H.
  - destruct resp; exact H.
  - destruct resp as [v|e]; cbn; [destruct (Js.get v "priority")|]; exact H.
  - destruct resp as [v|e]; cbn; [destruct (Js.get v "priority")|]; exact H.
  - destruct resp; exact H.
  - destruct resp; exact H.
  - exact H.
  - unfold channelDeliver.
    apply (invokeEach_invariant (fun x => subscribed x = negb (_closed x)));
      [|exact H].
    intros; now apply onChannelNotification_subscription.
  - unfold payloadDeliver.
    apply (invokeEach_invariant (fun x => subscribed x = negb (_closed x)));
      [|exact H].
    intros; now apply onPayloadNotification_subscription.
Qed.

Lemma run_subscription (history : list Action) :
  forall c, subscribed c = negb (_closed c) ->
  subscribed (run history c) = negb (_closed (run history c)).
Proof.
  induction history as [|a rest IH]; intros c H; cbn; [exact H|].
  apply IH, step_subscription, H.
Qed.

Lemma constructor_subscribed internal data channel payloadChannel appData
    paused producerPaused score preferredLayers :
  subscribed (constructor internal data channel payloadChannel appData paused
                producerPaused score preferredLayers) = true.
Proof.
  unfold subscribed; cbn. rewrite existsb_app; cbn.
  rewrite String.eqb_refl. now rewrite orb_true_r.
Qed.

(** X2. Throughout the life of a constructed Consumer its handler is
    registered on the channel exactly while it is open; once it is closed, by
    whichever trigger, a notification the channel delivers under its id, of
    any name, changes nothing. *)
Theorem subscription_tracks_open :
  forall history internal data channel payloadChannel appData paused
         producerPaused score preferredLayers,
  let c := run history
             (constructor internal data channel payloadChannel appData paused
                producerPaused score preferredLayers) in
  subscribed c = negb (_closed c)
  /\ (_closed c = true ->
      forall event payload, channelDeliver (id c) event payload c = c).
Proof.
  intros history internal data channel payloadChannel appData paused
         producerPaused score preferredLayers c.
  assert (H : subscribed c = negb (_closed c)).
  { apply run_subscription. now rewrite constructor_subscribed. }
  split; [exact H|].
  intros Hc event payload. rewrite Hc in H. cbn in H.
  unfold channelDeliver, Channel.listenersOf, id.
  unfold subscribed in H. now rewrite (not_listening _ _ H).
Qed.

Lemma subscription_tracks_open_witness :
  channelDeliver "consumer-1" "score" (Js.Number 4)
    (run [ChannelNotification "consumer-1" "producerclose" Js.Undefined] sample)
  = run [ChannelNotification "consumer-1" "producerclose" Js.Undefined] sample.
Proof.
  destruct (subscription_tracks_open
              [ChannelNotification "consumer-1" "producerclose" Js.Undefined]
              sampleInternal (mkData video Js.Null simple)
              (Channel.mk [] []) (PayloadChannel.mk [])
              (Js.Object [("room", Js.Str "lobby")]) false false
              Js.Undefined Js.Undefined) as (_ & Hdrop).
  apply (Hdrop eq_refl "score" (Js.Number 4)).
Defined.

(** ** Unknown notifications *)

Lemma not_a_case (event name : string) (names : list string) :
  ~ In event (name :: names) ->
  String.eqb event name = false /\ ~ In event names.
Proof.
  intros H. split.
  - apply String.eqb_neq. intros ->. apply H. now left.
  - intros Hin. apply H. now right.
Qed.

(** X3. A channel notification whose name is none of producerclose,
    producerpause, producerresume, score, layerschange and trace, and a
    payload notification whose name is not rtp, are only reported to the
    logger: no field changes, nothing is emitted, no request is placed. *)
Theorem unknown_events_only_logged :
  (forall c event data, ~ In event channelEvents ->
      onChannelNotification event data c = loggerError event c)
  /\ (forall c event data payload, event <> "rtp" ->
      onPayloadNotification event data payload c = loggerError event c)
  /\ (forall c event,
      let c' := loggerError event c in
      controlState c' = controlState c
      /\ score c' = score c /\ currentLayers c' = currentLayers c
      /\ localEvents c' = localEvents c
      /\ observerEvents c' = observerEvents c
      /\ requests c' = requests c
      /\ length (_logged c') = S (length (_logged c))).
Proof.
  split.
  { intros c event data H. unfold channelEvents in H.
    unfold onChannelNotification.
    repeat (apply not_a_case in H; destruct H as [-> H]).
    reflexivity. }
  split.
  { intros c event data payload H. unfold onPayloadNotification.
    apply String.eqb_neq in H. now rewrite H. }
  intros c event c'. subst c'. repeat split.
  cbn. rewrite length_app. cbn. lia.
Qed.

Lemma unknown_events_only_logged_witness :
  onChannelNotification "rtp" Js.Undefined sample = loggerError "rtp" sample
  /\ onPayloadNotification "score" (Js.Number 9) [] sample
     = loggerError "score" sample.
Proof.
  destruct unknown_events_only_logged as (Hch & Hpl & _).
  split.
  - apply (Hch sample "rtp" Js.Undefined).
    intros H. repeat (destruct H as [H|H]; [discriminate H|]). exact H.
  - apply (Hpl sample "score" (Js.Number 9) []). discriminate.
Defined.

(** ** Responses with unexpected content *)

(** X4. After a successful setPreferredLayers() the preferred layers are the
    response data when that is truthy, and undefined when it is falsy (null,
    false, 0, the empty string, undefined): a falsy value is never stored.
    Nothing else changes and no event is emitted. *)
Theorem preferredLayers_truthy_or_unset :
  forall c layers data,
  let c' := fst (settle (Fulfilled data) (setPreferredLayers layers c)) in
  (Js.truthy data = true -> preferredLayers c' = data)
  /\ (Js.truthy data = false -> preferredLayers c' = Js.Undefined)
  /\ (Js.truthy (preferredLayers c') = true \/ preferredLayers c' = Js.Undefined)
  /\ snd (settle (Fulfilled data) (setPreferredLayers layers c)) = Fulfilled tt
  /\ (_closed c', _paused c', _producerPaused c', _priority c')
     = (_closed c, _paused c, _producerPaused c, _priority c)
  /\ observerEvents c' = observerEvents c
  /\ localEvents c' = localEvents c.
Proof.
  intros c layers data c'. subst c'. cbn. unfold Js.or.
  destruct (Js.truthy data) eqn:E; repeat split; try discriminate; auto.
Qed.

Lemma preferredLayers_truthy_or_unset_witness :
  preferredLayers
    (fst (settle (Fulfilled Js.Null)
            (setPreferredLayers (mkLayers 2 None) sample))) = Js.Undefined
  /\ preferredLayers
       (fst (settle (Fulfilled (Js.Object [("spatialLayer", Js.Number 1)]))
               (setPreferredLayers (mkLayers 2 (Some 0%Z)) sample)))
     = Js.Object [("spatialLayer", Js.Number 1)].
Proof.
  split.
  - destruct (preferredLayers_truthy_or_unset sample (mkLayers 2 None) Js.Null)
      as (_ & Hfalsy & _).
    apply Hfalsy. reflexivity.
  - destruct (preferredLayers_truthy_or_unset sample (mkLayers 2 (Some 0%Z))
                (Js.Object [("spatialLayer", Js.Number 1)])) as (Htruthy & _).
    apply Htruthy. reflexivity.
Defined.

Lemma lookup_missing (k : string) (props : list (string * Js.value)) :
  (forall v, ~ In (k, v) props) -> Js.lookup k props = Js.Undefined.
Proof.
  induction props as [|[k' v'] props IH]; intros H; cbn; [reflexivity|].
  destruct (String.eqb k k') eqn:E.
  - apply String.eqb_eq in E. subst k'. exfalso. apply (H v'). now left.
  - apply IH. intros v Hin. apply (H v). now right.
Qed.

(** X5. What setPriority() and unsetPriority() do with a successful response
    that echoes no priority.  If the data is undefined or null the call is
    rejected with a TypeError and the priority keeps its value, the request
    having been placed.  If the data is an object without a priority key, the
    call is fulfilled and the priority becomes undefined. *)
Theorem priority_echo_missing :
  forall c n,
  (forall data, data = Js.Undefined \/ data = Js.Null ->
      settle (Fulfilled data) (setPriority n c)
      = (channelRequest "consumer.setPriority"
           (Js.Object [("priority", Js.Number n)]) c,
         Rejected (cannotRead "priority" data))
      /\ settle (Fulfilled data) (unsetPriority c)
         = (channelRequest "consumer.setPriority"
              (Js.Object [("priority", Js.Number 1)]) c,
            Rejected (cannotRead "priority" data))
      /\ err_name (cannotRead "priority" data) = "TypeError")
  /\ (forall props, (forall v, ~ In ("priority", v) props) ->
      settle (Fulfilled (Js.Object props)) (setPriority n c)
      = (with_priority Js.Undefined
           (channelRequest "consumer.setPriority"
              (Js.Object [("priority", Js.Number n)]) c),
         Fulfilled tt)
      /\ priority (fst (settle (Fulfilled (Js.Object props)) (unsetPriority c)))
         = Js.Undefined).
Proof.
  intros c n. split.
  - intros data [-> | ->]; repeat split.
  - intros props Hmiss. cbn. rewrite (lookup_missing _ _ Hmiss). split; reflexivity.
Qed.

Lemma priority_echo_missing_witness :
  snd (settle (Fulfilled Js.Undefined) (setPriority 4 sample))
  = Rejected (cannotRead "priority" Js.Undefined)
  /\ priority (fst (settle (Fulfilled Js.Undefined) (setPriority 4 sample)))
     = Js.Number 1
  /\ priority
       (fst (settle (Fulfilled (Js.Object [("level", Js.Number 4)]))
               (setPriority 4 sample))) = Js.Undefined.
Proof.
  destruct (priority_echo_missing sample 4) as (Hnone & Hobj).
  destruct (Hnone Js.Undefined (or_introl eq_refl)) as (Hset & _).
  split; [now rewrite Hset|].
  split; [now rewrite Hset|].
  assert (Hmiss : forall v, ~ In ("priority", v) [("level", Js.Number 4)]).
  { intros v [H|[]]. discriminate H. }
  destruct (Hobj [("level", Js.Number 4)] Hmiss) as (Hset' & _).
  now rewrite Hset'.
Defined.

(** ** Calls that only ask *)


(** ** Requests *)

Lemma countMethod_app (method : string) (xs ys : list Request) :
  countMethod method (xs ++ ys) = countMethod method xs + countMethod method ys.
Proof.
  unfold countMethod. now rewrite filter_app, length_app.
Qed.

Lemma onChannelNotification_requests (event : string) (data : Js.value) (c : t) :
  requests (onChannelNotification event data c) = requests c.
Proof.
  destruct c as [i d ch pch cl ad p q pr sc pl cu ob em lg].
  unfold onChannelNotification.
  handler_cases event; cbn; try reflexivity; destruct cl, p, q; reflexivity.
Qed.

Lemma onPayloadNotification_requests (event : string) (data : Js.value)
    (payload : list byte) (c : t) :
  requests (onPayloadNotification event data payload c) = requests c.
Proof.
  unfold onPayloadNotification.
  destruct (String.eqb event "rtp"); [destruct (_closed c)|]; reflexivity.
Qed.

Lemma requestKeyFrame_placed (c : t) (resp : Response) :
  requests (fst (settle resp (requestKeyFrame c))) =
  requests c ++ [mkRequest "consumer.requestKeyFrame" (_internal c) Js.Undefined].
Proof. destruct resp; reflexivity. Qed.

Lemma enableTraceEvent_placed (c : t) (resp : Response)
    (types : list ConsumerTraceEventType) :
  exists r, req_method r = "consumer.enableTraceEvent"
    /\ requests (fst (settle resp (enableTraceEvent types c))) = requests c ++ [r].
Proof. eexists; split; [|destruct resp; reflexivity]; reflexivity. Qed.

(** What one action adds to the requests: nothing or one request, whose
    method is consumer.close only when the action closes an open Consumer by
    close(). *)
Lemma step_places (a : Action) (c : t) :
  exists placed,
    requests (step a c) = requests c ++ placed
    /\ length placed <= 1
    /\ countMethod "consumer.close" placed + openCredit (step a c) <= openCredit c.
Proof.
  destruct a as [ | |resp|resp|resp|resp|layers resp|n resp|resp|resp|types resp
                |v|target ev data|target ev data payload]; cbn [step].
  - unfold close, openCredit. destruct (_closed c) eqn:E.
    + exists []. rewrite app_nil_r, E. cbn. repeat split; lia.
    + eexists. split; [cbn; reflexivity|]. cbn. lia.
  - exists []. rewrite app_nil_r. unfold transportClosed, openCredit.
    destruct (_closed c) eqn:E; [rewrite E|]; cbn; repeat split; lia.
  - eexists. split; [apply dump_requests|]. cbn. unfold openCredit; cbn. lia.
  - eexists. split; [apply getStats_requests|]. cbn. unfold openCredit; cbn. lia.
  - eexists. split; [apply pause_requests|]. cbn.
    unfold openCredit. destruct c as [i d ch pch cl ad p q pr sc pl cu ob em lg].
    destruct resp; cbn; [destruct (p || q); cbn|]; lia.
  - eexists. split; [apply resume_requests|]. cbn.
    unfold openCredit. destruct c as [i d ch pch cl ad p q pr sc pl cu ob em lg].
    destruct resp; cbn; [destruct ((p || q) && negb q); cbn|]; lia.
  - eexists. split; [apply setPreferredLayers_requests|]. cbn.
    unfold openCredit. destruct resp; cbn; lia.
  - eexists. split; [apply setPriority_requests|]. cbn.
    unfold openCredit. destruct resp as [v|e]; cbn;
      [destruct (Js.get v "priority"); cbn|]; lia.
  - eexists. split; [apply unsetPriority_requests|]. cbn.
    unfold openCredit. destruct resp as [v|e]; cbn;
      [destruct (Js.get v "priority"); cbn|]; lia.
  - eexists. split; [apply requestKeyFrame_placed|]. cbn.
    unfold openCredit. destruct resp; cbn; lia.
  - destruct (enableTraceEvent_placed c resp types) as (r & Hm & Hr).
    exists [r]. split; [exact Hr|]. unfold countMethod. cbn. rewrite Hm. cbn.
    unfold openCredit. destruct resp; cbn; lia.
  - exists []. rewrite app_nil_r. cbn. repeat split; lia.
  - exists []. rewrite app_nil_r. split.
    + unfold channelDeliver. apply invokeEach_preserves.
      apply onChannelNotification_requests.
    + cbn. split; [lia|]. unfold channelDeliver.
      apply (invokeEach_le openCredit). intros x. unfold openCredit.
      destruct (_closed x) eqn:E.
      * now rewrite (onChannelNotification_stays_closed _ _ _ E).
      * destruct (_closed (onChannelNotification ev data x)); lia.
  - exists []. rewrite app_nil_r. split.
    + unfold payloadDeliver. apply invokeEach_preserves.
      apply onPayloadNotification_requests.
    + cbn. split; [lia|]. unfold payloadDeliver.
      apply (invokeEach_le openCredit). intros x. unfold openCredit.
      destruct (_closed x) eqn:E.
      * now rewrite (onPayloadNotification_stays_closed _ _ _ _ E).
      * destruct (_closed (onPayloadNotification ev data payload x)); lia.
Qed.

Lemma run_places (history : list Action) :
  forall c, exists placed,
    requests (run history c) = requests c ++ placed
    /\ length placed <= length history
    /\ countMethod "consumer.close" placed + openCredit (run history c)
       <= openCredit c.
Proof.
  induction history as [|a rest IH]; intros c; cbn [run].
  - exists []. rewrite app_nil_r. cbn. repeat split; lia.
  - destruct (step_places a c) as (p1 & H1 & L1 & C1).
    destruct (IH (step a c)) as (p2 & H2 & L2 & C2).
    exists (p1 ++ p2). rewrite H2, H1, <- app_assoc.
    split; [reflexivity|]. rewrite length_app, countMethod_app. cbn. lia.
Qed.

(** X7. The requests placed on the channel only grow, by at most one per
    call, and notifications (of the channel or of the payload channel, of any
    name, to any target) place none. *)
Theorem requests_append_only :
  (forall c target event data,
      requests (channelDeliver target event data c) = requests c)
  /\ (forall c target event data payload,
      requests (payloadDeliver target event data payload c) = requests c)
  /\ (forall history c, exists placed,
      requests (run history c) = requests c ++ placed
      /\ length placed <= length history).
Proof.
  split.
  { intros. unfold channelDeliver. apply invokeEach_preserves.
    apply onChannelNotification_requests. }
  split.
  { intros. unfold payloadDeliver. apply invokeEach_preserves.
    apply onPayloadNotification_requests. }
  intros history c. destruct (run_places history c) as (placed & H & L & _).
  now exists placed.
Qed.

(** X8. Over any history at most one consumer.close request is added, and
    none once the Consumer is closed: a Consumer closed by transportClosed()
    or by a producerclose notification never sends a close request, however
    often close() is called afterwards. *)
Theorem at_most_one_close_request :
  (forall history c,
      countMethod "consumer.close" (requests (run history c))
      <= countMethod "consumer.close" (requests c) + 1)
  /\ (forall history c, _closed c = true ->
      countMethod "consumer.close" (requests (run history c))
      = countMethod "consumer.close" (requests c)).
Proof.
  split.
  - intros history c. destruct (run_places history c) as (placed & H & _ & C).
    rewrite H, countMethod_app. unfold openCredit in C at 2.
    destruct (_closed c); lia.
  - intros history c Hc. destruct (run_places history c) as (placed & H & _ & C).
    rewrite H, countMethod_app. unfold openCredit in C at 2.
    rewrite Hc in C. lia.
Qed.

Lemma at_most_one_close_request_witness :
  countMethod "consumer.close"
    (requests (run [Close; Close] (transportClosed sample))) = 0.
Proof.
  destruct at_most_one_close_request as (_ & Hclosed).
  rewrite (Hclosed [Close; Close] (transportClosed sample) eq_refl).
  reflexivity.
Defined.

(** ** Conserved quantities *)

Ltac tally :=
  unfold closingSignals, pauseBalance, peerBalance, openCredit,
    effectivelyPaused, localEvents, observerEvents, observerSafeEmit,
    safeEmit, emit, loggerError, channelRemoveAllListeners, channelRequest,
    EnhancedEventEmitter.safeEmit, EnhancedEventEmitter.emit;
  cbn -[countNamed Z.of_nat];
  rewrite ?countNamed_app; cbn -[Z.of_nat]; lia.

(** A call on a Consumer whose fields and flags are all spelled out. *)
Ltac call_cases tac :=
  match goal with
  | c : t |- _ => destruct c as [i d ch pch cl ad p q pr sc pl cu ob em lg]
  end;
  unfold close, transportClosed;
  try match goal with resp : Response |- _ => destruct resp as [v|e] end;
  cbn -[countNamed Z.of_nat];
  try match goal with |- context [Js.get ?v ?k] => destruct (Js.get v k) end;
  repeat match goal with b : bool |- _ => destruct b end; tac.

Ltac handler_tally ev :=
  match goal with
  | c : t |- _ => destruct c as [i d ch pch cl ad p q pr sc pl cu ob em lg]
  end;
  unfold onChannelNotification, onPayloadNotification;
  handler_cases ev;
  cbn [_closed _producerPaused _paused];
  repeat match goal with b : bool |- _ => destruct b end; tally.

Section Conserved.

Variables (X : Type) (f : t -> X).
Hypothesis f_call : forall a c,
  match a with
  | ChannelNotification _ _ _ | PayloadNotification _ _ _ _ => True
  | _ => f (step a c) = f c
  end.
Hypothesis f_channel : forall ev data c, f (onChannelNotification ev data c) = f c.
Hypothesis f_payload : forall ev data payload c,
  f (onPayloadNotification ev data payload c) = f c.

Lemma conserved_by_step (a : Action) (c : t) : f (step a c) = f c.
Proof.
  pose proof (f_call a c) as H.
  destruct a; try exact H; cbn [step].
  - unfold channelDeliver. apply invokeEach_preserves. apply f_channel.
  - unfold payloadDeliver. apply invokeEach_preserves. apply f_payload.
Qed.

Lemma conserved_by_run (history : list Action) :
  forall c, f (run history c) = f c.
Proof.
  induction history as [|a rest IH]; intros c; cbn; [reflexivity|].
  now rewrite IH, conserved_by_step.
Qed.

End Conserved.

Lemma closingSignals_conserved (history : list Action) (c : t) :
  closingSignals (run history c) = closingSignals c.
Proof.
  apply conserved_by_run.
  - intros a c0. destruct a; try exact I; cbn [step]; call_cases tally.
  - intros ev data c0. handler_tally ev.
  - intros ev data payload c0. handler_tally ev.
Qed.

Lemma pauseBalance_conserved (history : list Action) (c : t) :
  pauseBalance (run history c) = pauseBalance c.
Proof.
  apply conserved_by_run.
  - intros a c0. destruct a; try exact I; cbn [step]; call_cases tally.
  - intros ev data c0. handler_tally ev.
  - intros ev data payload c0. handler_tally ev.
Qed.

Lemma peerBalance_conserved (history : list Action) (c : t) :
  peerBalance (run history c) = peerBalance c.
Proof.
  apply conserved_by_run.
  - intros a c0. destruct a; try exact I; cbn [step]; call_cases tally.
  - intros ev data c0. handler_tally ev.
  - intros ev data payload c0. handler_tally ev.
Qed.

(** X9. The local events [@close], [transportclose] and [producerclose]
    announce a closing by close(), by transportClosed() and by a
    producerclose notification.  Their total number plus one for a Consumer
    still open never changes; so a constructed Consumer has emitted none of
    them while open and exactly one of them, once, after it is closed. *)
Theorem one_closing_signal :
  (forall history c, closingSignals (run history c) = closingSignals c)
  /\ (forall history internal data channel payloadChannel appData paused
             producerPaused score preferredLayers,
      let c := run history
                 (constructor internal data channel payloadChannel appData
                    paused producerPaused score preferredLayers) in
      countNamed "@close" (localEvents c)
      + countNamed "transportclose" (localEvents c)
      + countNamed "producerclose" (localEvents c)
      = if _closed c then 1 else 0).
Proof.
  split; [exact closingSignals_conserved|].
  intros history internal data channel payloadChannel appData paused
         producerPaused score preferredLayers c.
  pose proof (closingSignals_conserved history
                (constructor internal data channel payloadChannel appData
                   paused producerPaused score preferredLayers)) as H.
  fold c in H. unfold closingSignals, openCredit in H. cbn in H.
  destruct (_closed c); lia.
Qed.

(** X10. Calls settling one after the other and notifications in any order
    keep the observer in step with the effective pause: the number of
    observer [pause] events minus the number of [resume] events is 1 when a
    constructed Consumer that started unpaused is effectively paused, 0 when
    it is back to its initial effective pause, and -1 when one that started
    paused is no longer. *)
Theorem observer_tracks_effective_pause :
  (forall history c, pauseBalance (run history c) = pauseBalance c)
  /\ (forall history internal data channel payloadChannel appData paused
             producerPaused score preferredLayers,
      let c := run history
                 (constructor internal data channel payloadChannel appData
                    paused producerPaused score preferredLayers) in
      (Z.of_nat (countNamed "pause" (observerEvents c))
       - Z.of_nat (countNamed "resume" (observerEvents c)))%Z
      = ((if effectivelyPaused c then 1 else 0)
         - (if paused || producerPaused then 1 else 0))%Z).
Proof.
  split; [exact pauseBalance_conserved|].
  intros history internal data channel payloadChannel appData paused
         producerPaused score preferredLayers c.
  pose proof (pauseBalance_conserved history
                (constructor internal data channel payloadChannel appData
                   paused producerPaused score preferredLayers)) as H.
  fold c in H. unfold pauseBalance in H. cbn in H.
  unfold effectivelyPaused in *. cbn in H. lia.
Qed.

(** X11. In the same way the local [producerpause] and [producerresume]
    events follow the peer flag: their difference is the current
    [producerPaused] minus the one the Consumer was constructed with. *)
Theorem local_events_track_peer_pause :
  (forall history c, peerBalance (run history c) = peerBalance c)
  /\ (forall history internal data channel payloadChannel appData paused
             producerPaused score preferredLayers,
      let c := run history
                 (constructor internal data channel payloadChannel appData
                    paused producerPaused score preferredLayers) in
      (Z.of_nat (countNamed "producerpause" (localEvents c))
       - Z.of_nat (countNamed "producerresume" (localEvents c)))%Z
      = ((if _producerPaused c then 1 else 0)
         - (if producerPaused then 1 else 0))%Z).
Proof.
  split; [exact peerBalance_conserved|].
  intros history internal data channel payloadChannel appData paused
         producerPaused score preferredLayers c.
  pose proof (peerBalance_conserved history
                (constructor internal data channel payloadChannel appData
                   paused producerPaused score preferredLayers)) as H.
  fold c in H. unfold peerBalance in H. cbn in H. lia.
Qed.

(** ** The closed flag and the asynchronous methods *)

Ltac same_on_both :=
  match goal with
  | c : t |- _ => destruct c as [i d ch pch cl ad p q pr sc pl cu ob em lg]
  end;
  match goal with resp : Response |- _ => destruct resp as [v|e] end;
  cbn;
  try match goal with |- context [Js.get ?v ?k] => destruct (Js.get v k) end;
  repeat match goal with b : bool |- _ => destruct b end; reflexivity.

(** X12. No asynchronous method reads the closed flag: run on a Consumer
    whose flag is forced to [b], each gives the same outcome and the same
    state, flag apart, as on the Consumer itself.  In particular a response
    arriving for a closed Consumer still updates [paused], [priority] and
    [preferredLayers] and still emits [pause] or [resume] on the observer. *)
Theorem methods_do_not_read_closed :
  forall c b resp n layers types,
  settle resp (pause (with_closed b c))
  = (with_closed b (fst (settle resp (pause c))), snd (settle resp (pause c)))
  /\ settle resp (resume (with_closed b c))
     = (with_closed b (fst (settle resp (resume c))), snd (settle resp (resume c)))
  /\ settle resp (setPriority n (with_closed b c))
     = (with_closed b (fst (settle resp (setPriority n c))),
        snd (settle resp (setPriority n c)))
  /\ settle resp (unsetPriority (with_closed b c))
     = (with_closed b (fst (settle resp (unsetPriority c))),
        snd (settle resp (unsetPriority c)))
  /\ settle resp (setPreferredLayers layers (with_closed b c))
     = (with_closed b (fst (settle resp (setPreferredLayers layers c))),
        snd (settle resp (setPreferredLayers layers c)))
  /\ settle resp (requestKeyFrame (with_closed b c))
     = (with_closed b (fst (settle resp (requestKeyFrame c))),
        snd (settle resp (requestKeyFrame c)))
  /\ settle resp (enableTraceEvent types (with_closed b c))
     = (with_closed b (fst (settle resp (enableTraceEvent types c))),
        snd (settle resp (enableTraceEvent types c)))
  /\ settle resp (dump (with_closed b c))
     = (with_closed b (fst (settle resp (dump c))), snd (settle resp (dump c)))
  /\ settle resp (getStats (with_closed b c))
     = (with_closed b (fst (settle resp (getStats c))),
        snd (settle resp (getStats c))).
Proof.
  intros c b resp n layers types.
  repeat split; same_on_both.
Qed.

(** ** Nothing is forwarded after the closing *)

Lemma step_rtp_when_closed (a : Action) (c : t) :
  _closed c = true ->
  countNamed "rtp" (localEvents (step a c)) = countNamed "rtp" (localEvents c).
Proof.
  intros Hc.
  destruct a as [ | |resp|resp|resp|resp|layers resp|n resp|resp|resp|types resp
                |v|target ev data|target ev data payload]; cbn [step].
  1-12: call_cases ltac:(first [discriminate Hc | reflexivity | tally]).
  - unfold channelDeliver.
    apply (invokeEach_invariant
             (fun x => _closed x = true
                       /\ countNamed "rtp" (localEvents x)
                          = countNamed "rtp" (localEvents c)));
      [|now split].
    intros x [Hx Hn]. split; [now apply onChannelNotification_stays_closed|].
    rewrite <- Hn. clear Hn Hc c. handler_tally ev.
  - unfold payloadDeliver.
    apply (invokeEach_invariant
             (fun x => _closed x = true
                       /\ countNamed "rtp" (localEvents x)
                          = countNamed "rtp" (localEvents c)));
      [|now split].
    intros x [Hx Hn]. split; [now apply onPayloadNotification_stays_closed|].
    rewrite <- Hn. clear Hn Hc c.
    unfold onPayloadNotification.
    destruct (String.eqb ev "rtp"); [now rewrite Hx|reflexivity].
Qed.

(** X13. After the closing no rtp packet is forwarded any more: over any
    history that starts on a closed Consumer the number of local [rtp]
    events stays what it was, whatever the payload channel delivers. *)
Theorem no_rtp_after_close :
  forall history c, _closed c = true ->
  countNamed "rtp" (localEvents (run history c))
  = countNamed "rtp" (localEvents c).
Proof.
  induction history as [|a rest IH]; intros c Hc; cbn [run]; [reflexivity|].
  rewrite IH by now apply step_stays_closed.
  now apply step_rtp_when_closed.
Qed.

Lemma no_rtp_after_close_witness :
  countNamed "rtp"
    (localEvents
       (run [PayloadNotification "consumer-1" "rtp" Js.Undefined [x80];
             Pause (Fulfilled Js.Undefined);
             PayloadNotification "consumer-1" "rtp" Js.Undefined [x81]]
          (close sample))) = 0.
Proof.
  rewrite (no_rtp_after_close _ (close sample) eq_refl). reflexivity.
Defined.

(** ** Composing pauses and resumes *)

(** X14. Pausing and resuming undo each other.  On a Consumer not paused by
    itself, a successful pause() followed by a successful resume() restores
    every flag and adds to the observer [pause] then [resume] when the
    producer is not paused, and nothing when it is.  On a Consumer whose
    producer is not paused, producerpause followed by producerresume restores
    every flag, emits both events locally, and adds to the observer [pause]
    then [resume] when the Consumer is not paused itself, nothing when it is. *)
Theorem pause_resume_round_trip :
  (forall c v1 v2, _paused c = false ->
      let c' := fst (settle (Fulfilled v2)
                       (resume (fst (settle (Fulfilled v1) (pause c))))) in
      controlState c' = controlState c
      /\ observerEvents c'
         = observerEvents c
           ++ (if _producerPaused c then [] else [event "pause"; event "resume"])
      /\ localEvents c' = localEvents c)
  /\ (forall c d1 d2, _producerPaused c = false ->
      let c' := onChannelNotification "producerresume" d2
                  (onChannelNotification "producerpause" d1 c) in
      controlState c' = controlState c
      /\ observerEvents c'
         = observerEvents c
           ++ (if _paused c then [] else [event "pause"; event "resume"])
      /\ localEvents c'
         = localEvents c ++ [event "producerpause"; event "producerresume"]
      /\ requests c' = requests c).
Proof.
  split.
  - intros [i d ch pch cl ad p q pr sc pl cu ob em lg] v1 v2 Hp c'. subst c'.
    cbn in Hp. subst p. destruct q; cbn; rewrite ?app_nil_r; repeat split.
    unfold observerEvents; cbn. now rewrite <- app_assoc.
  - intros [i d ch pch cl ad p q pr sc pl cu ob em lg] d1 d2 Hq c'. subst c'.
    cbn in Hq. subst q. unfold onChannelNotification. destruct p; cbn;
      rewrite ?app_nil_r; repeat split.
    all: unfold localEvents, observerEvents; cbn; now rewrite <- app_assoc.
Qed.

Lemma pause_resume_round_trip_witness :
  observerEvents
    (fst (settle (Fulfilled Js.Undefined)
            (resume (fst (settle (Fulfilled Js.Undefined) (pause sample))))))
  = [event "pause"; event "resume"]
  /\ localEvents
       (onChannelNotification "producerresume" Js.Undefined
          (onChannelNotification "producerpause" Js.Undefined sample))
     = [event "producerpause"; event "producerresume"].
Proof.
  destruct pause_resume_round_trip as (Hown & Hpeer).
  split.
  - destruct (Hown sample Js.Undefined Js.Undefined eq_refl) as (_ & Hobs & _).
    exact Hobs.
  - destruct (Hpeer sample Js.Undefined Js.Undefined eq_refl) as (_ & _ & Hloc & _).
    exact Hloc.
Defined.

(** X15. The Consumer's own calls are not filtered the way peer
    notifications are: pause() on a Consumer already paused by itself, and
    resume() on one not paused by itself, still place their request, and when
    it succeeds the Consumer is left exactly as it was apart from that
    request, with no event emitted. *)
Theorem redundant_own_pause_still_requests :
  (forall c v, _paused c = true ->
      settle (Fulfilled v) (pause c)
      = (channelRequest "consumer.pause" Js.Undefined c, Fulfilled tt))
  /\ (forall c v, _paused c = false ->
      settle (Fulfilled v) (resume c)
      = (channelRequest "consumer.resume" Js.Undefined c, Fulfilled tt)).
Proof.
  split.
  - intros [i d ch pch cl ad p q pr sc pl cu ob em lg] v Hp.
    cbn in Hp. subst p. reflexivity.
  - intros [i d ch pch cl ad p q pr sc pl cu ob em lg] v Hp.
    cbn in Hp. subst p. cbn. destruct q; reflexivity.
Qed.

Lemma redundant_own_pause_still_requests_witness :
  settle (Fulfilled Js.Undefined) (resume sample)
  = (channelRequest "consumer.resume" Js.Undefined sample, Fulfilled tt)
  /\ settle (Fulfilled Js.Undefined)
       (pause (fst (settle (Fulfilled Js.Undefined) (pause sample))))
     = (channelRequest "consumer.pause" Js.Undefined
          (fst (settle (Fulfilled Js.Undefined) (pause sample))), Fulfilled tt).
Proof.
  destruct redundant_own_pause_still_requests as (Hpause & Hresume).
  split.
  - apply (Hresume sample Js.Undefined). reflexivity.
  - apply (Hpause (fst (settle (Fulfilled Js.Undefined) (pause sample)))
             Js.Undefined).
    reflexivity.
Defined.

(** ** Score and layers *)

Section Invariant.

Variable P : t -> Prop.
Hypothesis P_call : forall a c, P c ->
  match a with
  | ChannelNotification _ _ _ | PayloadNotification _ _ _ _ => True
  | _ => P (step a c)
  end.
Hypothesis P_channel : forall ev data c, P c -> P (onChannelNotification ev data c).
Hypothesis P_payload : forall ev data payload c,
  P c -> P (onPayloadNotification ev data payload c).

Lemma invariant_by_step (a : Action) (c : t) : P c -> P (step a c).
Proof.
  intros Hc. pose proof (P_call a c Hc) as H.
  destruct a; try exact H; cbn [step].
  - unfold channelDeliver. apply invokeEach_invariant; [|exact Hc].
    intros; now apply P_channel.
  - unfold payloadDeliver. apply invokeEach_invariant; [|exact Hc].
    intros; now apply P_payload.
Qed.

Lemma invariant_by_run (history : list Action) :
  forall c, P c -> P (run history c).
Proof.
  induction history as [|a rest IH]; intros c Hc; cbn; [exact Hc|].
  apply IH, invariant_by_step, Hc.
Qed.

End Invariant.

Ltac mirror H :=
  unfold mirrors, localEvents, observerEvents, observerSafeEmit, safeEmit,
    emit, loggerError, channelRemoveAllListeners, channelRequest,
    EnhancedEventEmitter.safeEmit, EnhancedEventEmitter.emit in *;
  cbn -[filter] in *;
  rewrite ?filter_app; cbn; rewrite ?app_nil_r;
  first [exact H | now rewrite H].

Lemma mirrors_kept (history : list Action) (c : t) :
  mirrors c -> mirrors (run history c).
Proof.
  apply invariant_by_run.
  - intros a c0 H. destruct a; try exact I; cbn [step]; call_cases ltac:(mirror H).
  - intros ev data c0 H.
    destruct c0 as [i d ch pch cl ad p q pr sc pl cu ob em lg].
    unfold onChannelNotification. handler_cases ev;
      cbn [_closed _producerPaused _paused];
      repeat match goal with b : bool |- _ => destruct b end; mirror H.
  - intros ev data payload c0 H.
    destruct c0 as [i d ch pch cl ad p q pr sc pl cu ob em lg].
    unfold onPayloadNotification. destruct (String.eqb ev "rtp");
      cbn [_closed]; repeat match goal with b : bool |- _ => destruct b end;
      mirror H.
Qed.

(** X16. The observer mirrors the local [score], [layerschange] and [trace]
    events: over any history of a constructed Consumer it has received
    exactly those events, with the same payloads, in the same order. *)
Theorem observer_mirrors_monitored_events :
  (forall history c, mirrors c -> mirrors (run history c))
  /\ (forall history internal data channel payloadChannel appData paused
             producerPaused score preferredLayers,
      mirrors
        (run history
           (constructor internal data channel payloadChannel appData paused
              producerPaused score preferredLayers))).
Proof.
  split; [exact mirrors_kept|].
  intros. apply mirrors_kept. reflexivity.
Qed.

Lemma observer_mirrors_monitored_events_witness :
  filter monitored
    (observerEvents
       (run [ChannelNotification "consumer-1" "score" (Js.Number 9);
             Pause (Fulfilled Js.Undefined);
             ChannelNotification "consumer-1" "trace" (Js.Str "pli")] sample))
  = filter monitored
      (localEvents
         (run [ChannelNotification "consumer-1" "score" (Js.Number 9);
               Pause (Fulfilled Js.Undefined);
               ChannelNotification "consumer-1" "trace" (Js.Str "pli")] sample)).
Proof.
  destruct observer_mirrors_monitored_events as (Hkept & _).
  apply (Hkept _ sample). reflexivity.
Defined.

Lemma latest_snoc (name : string) (events : list Emission) (e : Emission)
    (init : Js.value) :
  latest name (events ++ [e]) init
  = if named name e then hd Js.Undefined (ev_args e) else latest name events init.
Proof. unfold latest. now rewrite fold_left_app. Qed.

Ltac follow H :=
  unfold snapshotsFollow, score, currentLayers, localEvents, observerSafeEmit,
    safeEmit, emit, loggerError, channelRemoveAllListeners, channelRequest,
    EnhancedEventEmitter.safeEmit, EnhancedEventEmitter.emit in *;
  cbn -[latest] in *;
  rewrite ?latest_snoc; cbn -[latest];
  first [exact H | destruct H; split; (reflexivity || assumption)].

Lemma snapshotsFollow_kept (score0 : Js.value) (history : list Action) (c : t) :
  snapshotsFollow score0 c -> snapshotsFollow score0 (run history c).
Proof.
  apply invariant_by_run.
  - intros a c0 H. destruct a; try exact I; cbn [step]; call_cases ltac:(follow H).
  - intros ev data c0 H.
    destruct c0 as [i d ch pch cl ad p q pr sc pl cu ob em lg].
    unfold onChannelNotification. handler_cases ev;
      cbn [_closed _producerPaused _paused];
      repeat match goal with b : bool |- _ => destruct b end; follow H.
  - intros ev data payload c0 H.
    destruct c0 as [i d ch pch cl ad p q pr sc pl cu ob em lg].
    unfold onPayloadNotification. destruct (String.eqb ev "rtp");
      cbn [_closed]; repeat match goal with b : bool |- _ => destruct b end;
      follow H.
Qed.

(** X17. The [score] and [currentLayers] getters report the last
    notification: over any history of a constructed Consumer, [score] is the
    payload of the latest local [score] event, or the score it was
    constructed with (the default when that was undefined) if there was none,
    and [currentLayers] is the payload of the latest [layerschange] event, or
    undefined. *)
Theorem getters_report_latest_notification :
  forall history internal data channel payloadChannel appData paused
         producerPaused score0 preferredLayers,
  let c := run history
             (constructor internal data channel payloadChannel appData paused
                producerPaused score0 preferredLayers) in
  score c
  = latest "score" (localEvents c)
      (match score0 with Js.Undefined => defaultScore | _ => score0 end)
  /\ currentLayers c = latest "layerschange" (localEvents c) Js.Undefined.
Proof.
  intros. apply snapshotsFollow_kept. split; reflexivity.
Qed.
